(** * backend/apiplanner.py: the itinerary endpoint

    A shallow embedding of the Flask service in [backend/apiplanner.py]:
    the clean-up of the model's text and its JSON parse
    ([generate_itinerary]), the dispatch of tool calls
    ([handle_tool_calls]) and the request handler
    ([generate_itinerary_api]).

    Python values are the values of [pyval]; a [str] is its sequence of
    code points; exceptions are explicit ([Exc]); the remote model is an
    oracle indexed by the number of calls made so far, threaded through the
    monad [M]; the limits of the interpreter that [json.loads] meets are a
    parameter ([Interp]).  Output on stdout ([print]) is not modelled. *)

From Stdlib Require Import List NArith ZArith Lia Bool Ascii String.
From Stdlib Require Import DecimalString.
Import ListNotations.

Set Warnings "-register-all".

(** ** Python strings *)

Module PyStr.

(** A Python [str] is a sequence of Unicode code points. *)
Definition char := N.
Definition str := list char.

(** [py "..."] is the [str] with the characters of an ASCII literal. *)
Definition py (s : string) : str :=
  List.map N_of_ascii (list_ascii_of_string s).

(** As [py], with every apostrophe standing for a double quote (U+0022), so
    that JSON text can be written down. *)
Definition jq (s : string) : str :=
  List.map (fun c => if N.eqb c 39 then 34%N else c) (py s).

Fixpoint str_eqb (a b : str) : bool :=
  match a, b with
  | [], [] => true
  | x :: a', y :: b' => N.eqb x y && str_eqb a' b'
  | _, _ => false
  end.

(** [s.startswith(p)] *)
Fixpoint startswith (p s : str) : bool :=
  match p, s with
  | [], _ => true
  | x :: p', y :: s' => N.eqb x y && startswith p' s'
  | _ :: _, [] => false
  end.

(** [str.replace(old, new)]: the occurrences of [old] are found from the
    left and do not overlap.  [skip] counts the characters of a matched
    occurrence that are still to be dropped. *)
Fixpoint replace_from (old new : str) (skip : nat) (s : str) : str :=
  match s with
  | [] => match old with [] => new | _ => [] end
  | c :: t =>
      match skip with
      | S k => replace_from old new k t
      | O =>
          if startswith old s
          then match old with
               | [] => new ++ c :: replace_from old new 0 t
               | _ :: old' => new ++ replace_from old new (List.length old') t
               end
          else c :: replace_from old new 0 t
      end
  end.

Definition replace (s old new : str) : str := replace_from old new 0 s.

(** [str.isspace] on one character: the code points Python counts as
    whitespace. *)
Definition isspace (c : char) : bool :=
  ((9 <=? c) && (c <=? 13) || (28 <=? c) && (c <=? 32)
   || (c =? 133) || (c =? 160) || (c =? 5760)
   || (8192 <=? c) && (c <=? 8202)
   || (c =? 8232) || (c =? 8233) || (c =? 8239) || (c =? 8287)
   || (c =? 12288))%N.

Fixpoint lstrip (s : str) : str :=
  match s with
  | c :: t => if isspace c then lstrip t else s
  | [] => []
  end.

Definition rstrip (s : str) : str := rev (lstrip (rev s)).

(** [s.strip()] *)
Definition strip (s : str) : str := rstrip (lstrip s).

(** [str(n)] for a natural number. *)
Definition str_of_nat (n : nat) : str :=
  py (NilZero.string_of_uint (Nat.to_uint n)).

End PyStr.
Export PyStr.

(** ** Python values and exceptions *)

(** The values the service handles: what [json.loads] builds and what
    [jsonify] serialises.  A [dict] keeps its keys in insertion order.  A
    float is kept as the text it was read from ([float(text)] itself is not
    modelled). *)
Inductive pyval : Type :=
| PNone
| PBool (b : bool)
| PInt (z : Z)
| PFloat (text : str)
| PStr (s : str)
| PList (items : list pyval)
| PDict (pairs : list (str * pyval)).

(** A [dict] with [str] keys, in insertion order. *)
Definition dict_of (V : Type) := list (str * V).
Definition dict := dict_of pyval.

(** [d.get(k)] *)
Fixpoint dict_get {V : Type} (d : dict_of V) (k : str) : option V :=
  match d with
  | [] => None
  | (k', v) :: d' => if str_eqb k' k then Some v else dict_get d' k
  end.

(** [d[k] = v]: an existing key keeps its place. *)
Fixpoint dict_set {V : Type} (d : dict_of V) (k : str) (v : V) : dict_of V :=
  match d with
  | [] => [(k, v)]
  | (k', v') :: d' =>
      if str_eqb k' k then (k', v) :: d' else (k', v') :: dict_set d' k v
  end.

(** [type(v).__name__] *)
Definition type_name (v : pyval) : str :=
  match v with
  | PNone => py "NoneType"
  | PBool _ => py "bool"
  | PInt _ => py "int"
  | PFloat _ => py "float"
  | PStr _ => py "str"
  | PList _ => py "list"
  | PDict _ => py "dict"
  end.

(** The exception classes the [except] clauses of the file tell apart;
    every other subclass of [Exception] is an [OtherException]. *)
Inductive exn_class : Type :=
| JSONDecodeError
| LangChainException
| AttributeError
| ValueError
| RecursionError
| OtherException.

(** An exception and [str(e)]. *)
Record exn : Type := Exn { exn_cls : exn_class; exn_str : str }.

Definition is_JSONDecodeError (e : exn) : bool :=
  match exn_cls e with JSONDecodeError => true | _ => false end.

Definition is_LangChainException (e : exn) : bool :=
  match exn_cls e with LangChainException => true | _ => false end.

(** The outcome of evaluating an expression. *)
Inductive Exc (A : Type) : Type :=
| Return (a : A)
| Raise (e : exn).
Arguments Return {A} a.
Arguments Raise {A} e.

(** The limits of the interpreter that the decoder runs into:
    [int_max_str_digits] is [sys.get_int_max_str_digits()] (0 for no
    limit), [recursion_budget] the number of arrays and objects, one inside
    the other, that the decoder can enter before the recursion limit is
    reached. *)
Class Interp : Type :=
  { int_max_str_digits : nat;
    recursion_budget : nat }.

(** ** [json.loads]

    After CPython's decoder ([json.decoder], [json.scanner] and their C
    accelerator): strict mode, no hooks.  Beside [JSONDecodeError] it raises
    [ValueError] for an integer of more digits than the interpreter
    converts and [RecursionError] for a nesting deeper than the interpreter
    allows. *)

Module Json.

(** What a scanner returns: a value and the text after it, or a
    [JSONDecodeError] with its message and the number of characters that
    remained at the position it reports, or another exception. *)
Inductive pres (A : Type) : Type :=
| Ok (a : A) (rest : str)
| Err (msg : str) (remaining : nat)
| Fail (e : exn)
| OutOfFuel.
Arguments Ok {A} a rest.
Arguments Err {A} msg remaining.
Arguments Fail {A} e.
Arguments OutOfFuel {A}.

Definition is_ws (c : char) : bool :=
  ((c =? 32) || (c =? 9) || (c =? 10) || (c =? 13))%N.

Fixpoint skip_ws (s : str) : str :=
  match s with
  | c :: t => if is_ws c then skip_ws t else s
  | [] => []
  end.

Definition is_digit (c : char) : bool := ((48 <=? c) && (c <=? 57))%N.

Definition hex_digit (c : char) : option N :=
  if is_digit c then Some (c - 48)%N
  else if ((97 <=? c) && (c <=? 102))%N then Some (c - 87)%N
  else if ((65 <=? c) && (c <=? 70))%N then Some (c - 55)%N
  else None.

Definition hex4 (a b c d : char) : option N :=
  match hex_digit a, hex_digit b, hex_digit c, hex_digit d with
  | Some x, Some y, Some z, Some w => Some (((x * 16 + y) * 16 + z) * 16 + w)%N
  | _, _, _, _ => None
  end.

Definition is_high_surrogate (u : N) : bool := ((55296 <=? u) && (u <=? 56319))%N.
Definition is_low_surrogate (u : N) : bool := ((56320 <=? u) && (u <=? 57343))%N.
Definition join_surrogates (u u2 : N) : N :=
  (65536 + ((u - 55296) * 1024 + (u2 - 56320)))%N.

(** The one-character escapes after a backslash. *)
Definition simple_escape (c : char) : option char :=
  if (c =? 34)%N then Some 34%N
  else if (c =? 92)%N then Some 92%N
  else if (c =? 47)%N then Some 47%N
  else if (c =? 98)%N then Some 8%N
  else if (c =? 102)%N then Some 12%N
  else if (c =? 110)%N then Some 10%N
  else if (c =? 114)%N then Some 13%N
  else if (c =? 116)%N then Some 9%N
  else None.

Definition unterminated : str := py "Unterminated string starting at".
Definition invalid_control : str := py "Invalid control character at".
Definition invalid_escape : str := py "Invalid \escape".
Definition invalid_uXXXX : str := py "Invalid \uXXXX escape".
Definition expecting_value : str := py "Expecting value".
Definition expecting_name : str :=
  py "Expecting property name enclosed in double quotes".
Definition expecting_colon : str := py "Expecting ':' delimiter".
Definition expecting_comma : str := py "Expecting ',' delimiter".
Definition extra_data : str := py "Extra data".
Definition unexpected_bom : str :=
  py "Unexpected UTF-8 BOM (decode using utf-8-sig)".

(** [scanstring]: [s] starts after the opening quote, [begin] is what
    remained at that quote, [acc] the characters read so far, last first. *)
Fixpoint scanstring (begin : nat) (acc : str) (s : str) {struct s} : pres str :=
  match s with
  | [] => Err unterminated begin
  | c :: t =>
      if (c =? 34)%N then Ok (rev acc) t
      else if (c =? 92)%N then
        match t with
        | [] => Err unterminated begin
        | e :: t1 =>
            if (e =? 117)%N then
              match t1 with
              | h1 :: h2 :: h3 :: h4 :: ((_ :: _) as t2) =>
                  match hex4 h1 h2 h3 h4 with
                  | None => Err invalid_uXXXX (List.length t)
                  | Some u =>
                      if is_high_surrogate u then
                        match t2 with
                        | b :: u' :: g1 :: g2 :: g3 :: g4 :: ((_ :: _) as t3) =>
                            if ((b =? 92) && (u' =? 117))%N then
                              match hex4 g1 g2 g3 g4 with
                              | None => Err invalid_uXXXX (List.length t2 - 1)
                              | Some u2 =>
                                  if is_low_surrogate u2
                                  then scanstring begin (join_surrogates u u2 :: acc) t3
                                  else scanstring begin (u :: acc) t2
                              end
                            else scanstring begin (u :: acc) t2
                        | _ => scanstring begin (u :: acc) t2
                        end
                      else scanstring begin (u :: acc) t2
                  end
              | _ => Err invalid_uXXXX (List.length t)
              end
            else
              match simple_escape e with
              | Some ch => scanstring begin (ch :: acc) t1
              | None => Err invalid_escape (List.length s)
              end
        end
      else if (c <=? 31)%N then Err invalid_control (List.length s)
      else scanstring begin (c :: acc) t
  end.

Fixpoint span_digits (s : str) : str * str :=
  match s with
  | c :: t =>
      if is_digit c then let (d, r) := span_digits t in (c :: d, r) else ([], s)
  | [] => ([], [])
  end.

(** [int(text)] for a run of decimal digits. *)
Definition int_of_digits (ds : str) : Z :=
  fold_left (fun acc c => (acc * 10 + Z.of_N (c - 48))%Z) ds 0%Z.

(** The number at the head of a text, if one is there: an optional minus,
    an integer part without a leading zero, then a fraction and an exponent
    when they are complete. *)
Definition take_sign (s : str) : bool * str :=
  match s with
  | c :: t => if (c =? 45)%N then (true, t) else (false, s)
  | [] => (false, s)
  end.

Definition take_int (s : str) : option (str * str) :=
  match s with
  | [] => None
  | c :: t =>
      if ((49 <=? c) && (c <=? 57))%N
      then let (d, r) := span_digits t in Some (c :: d, r)
      else if (c =? 48)%N then Some ([c], t) else None
  end.

Definition take_frac (s : str) : str * str :=
  match s with
  | p :: d :: t =>
      if (p =? 46)%N && is_digit d
      then let (ds, r) := span_digits t in (p :: d :: ds, r)
      else ([], s)
  | _ => ([], s)
  end.

Definition take_exp (s : str) : str * str :=
  match s with
  | e :: t =>
      if ((e =? 101) || (e =? 69))%N then
        let (sg, t') := match t with
                        | x :: y =>
                            if ((x =? 45) || (x =? 43))%N then ([x], y) else ([], t)
                        | [] => ([], t)
                        end in
        match span_digits t' with
        | ([], _) => ([], s)
        | (ds, r) => (e :: sg ++ ds, r)
        end
      else ([], s)
  | [] => ([], s)
  end.

Section Decoder.
Context {I : Interp}.

(** [int(text)] refuses a text of more than [int_max_str_digits] digits
    (texts of 640 digits or fewer are never refused). *)
Definition too_many_digits (ds : str) : bool :=
  Nat.ltb 640 (List.length ds)
  && Nat.ltb 0 int_max_str_digits
  && Nat.ltb int_max_str_digits (List.length ds).

Definition digits_error (ds : str) : exn :=
  Exn ValueError
      (py "Exceeds the limit (" ++ str_of_nat int_max_str_digits
          ++ py " digits) for integer string conversion: value has "
          ++ str_of_nat (List.length ds)
          ++ py " digits; use sys.set_int_max_str_digits() to increase the limit").

Definition match_number (s : str) : option (Exc pyval * str) :=
  let (neg, s1) := take_sign s in
  match take_int s1 with
  | None => None
  | Some (ds, r) =>
      let (frac, r1) := take_frac r in
      let (ex, r2) := take_exp r1 in
      match frac, ex with
      | [], [] =>
          if too_many_digits ds then Some (Raise (digits_error ds), r2)
          else
            let z := int_of_digits ds in
            Some (Return (PInt (if neg then (- z)%Z else z)), r2)
      | _, _ =>
          Some (Return (PFloat ((if neg then [45%N] else []) ++ ds ++ frac ++ ex)),
                r2)
      end
  end.

Definition recursion_error (kind : str) : exn :=
  Exn RecursionError
      (py "maximum recursion depth exceeded while decoding a JSON " ++ kind
          ++ py " from a unicode string").

(** [scan_once] with the loops of [_parse_object] and [_parse_array].
    [object_loop] starts where a key is expected, [array_loop] where an
    item is.  [depth] is how many arrays and objects can still be entered.
    Every recursive call is made on a shorter text, so fuel above twice the
    length of the text is never used up ([scan_fuel] below). *)
Fixpoint scan_once (fuel : nat) (depth : nat) (s : str) {struct fuel} : pres pyval :=
  match fuel with
  | O => OutOfFuel
  | S fuel' =>
      match s with
      | [] => Err expecting_value 0
      | c :: t =>
          if (c =? 34)%N then
            match scanstring (List.length s) [] t with
            | Ok k r => Ok (PStr k) r
            | Err m p => Err m p
            | Fail e => Fail e
            | OutOfFuel => OutOfFuel
            end
          else if (c =? 123)%N then
            match depth with
            | O => Fail (recursion_error (py "object"))
            | S depth' =>
                match skip_ws t with
                | c' :: t' =>
                    if (c' =? 125)%N then Ok (PDict []) t'
                    else object_loop fuel' depth' [] (c' :: t')
                | [] => object_loop fuel' depth' [] []
                end
            end
          else if (c =? 91)%N then
            match depth with
            | O => Fail (recursion_error (py "array"))
            | S depth' =>
                match skip_ws t with
                | c' :: t' =>
                    if (c' =? 93)%N then Ok (PList []) t'
                    else array_loop fuel' depth' [] (c' :: t')
                | [] => array_loop fuel' depth' [] []
                end
            end
          else if startswith (py "null") s then Ok PNone (skipn 4 s)
          else if startswith (py "true") s then Ok (PBool true) (skipn 4 s)
          else if startswith (py "false") s then Ok (PBool false) (skipn 5 s)
          else if startswith (py "NaN") s then Ok (PFloat (py "NaN")) (skipn 3 s)
          else if startswith (py "Infinity") s
          then Ok (PFloat (py "Infinity")) (skipn 8 s)
          else if startswith (py "-Infinity") s
          then Ok (PFloat (py "-Infinity")) (skipn 9 s)
          else
            match match_number s with
            | Some (Return v, r) => Ok v r
            | Some (Raise e, _) => Fail e
            | None => Err expecting_value (List.length s)
            end
      end
  end

with object_loop (fuel : nat) (depth : nat) (pairs : dict) (s : str)
       {struct fuel} : pres pyval :=
  match fuel with
  | O => OutOfFuel
  | S fuel' =>
      match s with
      | [] => Err expecting_name 0
      | c :: t =>
          if negb (c =? 34)%N then Err expecting_name (List.length s)
          else
            match scanstring (List.length s) [] t with
            | OutOfFuel => OutOfFuel
            | Fail e => Fail e
            | Err m p => Err m p
            | Ok key r =>
                match skip_ws r with
                | [] => Err expecting_colon 0
                | c1 :: t1 =>
                    if negb (c1 =? 58)%N
                    then Err expecting_colon (List.length (c1 :: t1))
                    else
                      match scan_once fuel' depth (skip_ws t1) with
                      | OutOfFuel => OutOfFuel
                      | Fail e => Fail e
                      | Err m p => Err m p
                      | Ok val r3 =>
                          let pairs' := dict_set pairs key val in
                          match skip_ws r3 with
                          | [] => Err expecting_comma 0
                          | c4 :: t4 =>
                              if (c4 =? 125)%N then Ok (PDict pairs') t4
                              else if (c4 =? 44)%N
                              then object_loop fuel' depth pairs' (skip_ws t4)
                              else Err expecting_comma (List.length (c4 :: t4))
                          end
                      end
                end
            end
      end
  end

with array_loop (fuel : nat) (depth : nat) (items : list pyval) (s : str)
       {struct fuel} : pres pyval :=
  match fuel with
  | O => OutOfFuel
  | S fuel' =>
      match scan_once fuel' depth s with
      | OutOfFuel => OutOfFuel
      | Fail e => Fail e
      | Err m p => Err m p
      | Ok val r =>
          let items' := items ++ [val] in
          match skip_ws r with
          | [] => Err expecting_comma 0
          | c :: t =>
              if (c =? 93)%N then Ok (PList items') t
              else if (c =? 44)%N then array_loop fuel' depth items' (skip_ws t)
              else Err expecting_comma (List.length (c :: t))
          end
      end
  end.

End Decoder.

(** What a scan with enough fuel satisfies: it does not run out of fuel,
    and a value it returns used up at least one character. *)
Definition consumes (res : pres pyval) (s : str) : Prop :=
  res <> OutOfFuel /\ forall v r, res = Ok v r -> List.length r < List.length s.

(** [JSONDecodeError(msg, doc, pos)]: the message carries the line, the
    column and the offset of [pos]. *)
Definition lineno (doc : str) (pos : nat) : nat :=
  S (List.length (filter (N.eqb 10) (firstn pos doc))).

Fixpoint last_line (s acc : str) : str :=
  match s with
  | [] => acc
  | c :: t => if (c =? 10)%N then last_line t [] else last_line t (acc ++ [c])
  end.

Definition colno (doc : str) (pos : nat) : nat :=
  S (List.length (last_line (firstn pos doc) [])).

Definition decode_error (msg doc : str) (pos : nat) : exn :=
  Exn JSONDecodeError
      (msg ++ py ": line " ++ str_of_nat (lineno doc pos)
           ++ py " column " ++ str_of_nat (colno doc pos)
           ++ py " (char " ++ str_of_nat pos ++ py ")").

(** [json.loads(s)] for a [str]. *)
Definition loads {I : Interp} (s : str) : Exc pyval :=
  if startswith [65279%N] s then Raise (decode_error unexpected_bom s 0)
  else
    match scan_once (S (2 * List.length s)) recursion_budget (skip_ws s) with
    | Ok v r =>
        match skip_ws r with
        | [] => Return v
        | r' => Raise (decode_error extra_data s (List.length s - List.length r'))
        end
    | Err m remaining => Raise (decode_error m s (List.length s - remaining))
    | Fail e => Raise e
    | OutOfFuel =>
        Raise (Exn RecursionError (py "maximum recursion depth exceeded"))
    end.

End Json.

(** ** The remote model *)

Inductive Message : Type :=
| SystemMessage (content : str)
| HumanMessage (content : str).

(** An entry of [response.additional_kwargs["tool_calls"]], as the provider
    sends it: [tc["function"]["name"]] and the text
    [tc["function"]["arguments"]]. *)
Record RawToolCall : Type :=
  { function_name : str; function_arguments : str }.

(** An entry of [response.tool_calls]. *)
Record ToolCall : Type := { call_name : str; call_args : pyval }.

Record AIMessage : Type :=
  { content : str;
    tool_calls : list ToolCall;
    additional_kwargs_tool_calls : option (list RawToolCall) }.

(** What an [invoke] on the model returns: an [AIMessage], or a message of
    another class. *)
Inductive Response : Type :=
| IsAIMessage (m : AIMessage)
| NotAIMessage (text : str).

Definition response_content (r : Response) : str :=
  match r with IsAIMessage m => content m | NotAIMessage t => t end.

(** What the model is invoked on: a prompt ([main_llm.invoke(prompt)]) or a
    conversation with tools bound
    ([main_llm.bind_tools(tools).invoke(messages)]). *)
Inductive LlmInput : Type :=
| Prompt (prompt : str)
| Chat (bound : list str) (messages : list Message).

(** The remote model: its answer to the call number [k] of the process.
    Any behaviour of the service is one such oracle. *)
Definition Llm := nat -> LlmInput -> Exc Response.

(** ** Computations: the number of remote calls made so far is the state,
    an exception ends the computation until an [except] catches it. *)

Definition M (A : Type) : Type := nat -> Exc A * nat.

Definition ret {A : Type} (a : A) : M A := fun k => (Return a, k).

Definition raise {A : Type} (e : exn) : M A := fun k => (Raise e, k).

Definition lift {A : Type} (x : Exc A) : M A := fun k => (x, k).

Definition bind {A B : Type} (m : M A) (f : A -> M B) : M B :=
  fun k =>
    match m k with
    | (Return a, k') => f a k'
    | (Raise e, k') => (Raise e, k')
    end.

(** [try: m except Exception as e: h e] *)
Definition try_except {A : Type} (m : M A) (h : exn -> M A) : M A :=
  fun k =>
    match m k with
    | (Return a, k') => (Return a, k')
    | (Raise e, k') => h e k'
    end.

Definition call (llm : Llm) (input : LlmInput) : M Response :=
  fun k => (llm k input, S k).

Notation "x <- m ;; f" := (bind m (fun x => f))
  (at level 61, m at next level, right associativity).

(** ** [generate_itinerary] (lines 38-93) *)

Section Service.
Context {I : Interp}.

Definition unlines (ls : list str) : str :=
  List.concat (List.map (fun l => l ++ [10%N]) ls).

(** The f-string of lines 41-77. *)
Definition prompt_of (destination : str) : str :=
  [10%N] ++ py "    Create an itinerary for " ++ destination ++ py " including:"
  ++ [10%N]
  ++ unlines
       [ py "    - Real elevation data in meters.";
         py "    - Ensure the latitude and longitude of a location do not repeat; make small adjustments (even 0.0001) if necessary.";
         py "    - Include notable landmarks.";
         py "    - Make sure the coordinates are as accurate as possible";
         py "    - Start the itinerary from Kathmandu if the destination is in Nepal.";
         py "    ";
         py "    Format as JSON with this structure:";
         py "    {";
         jq "      'itinerary': [";
         py "        {";
         jq "          'day': 1,";
         jq "          'location': 'Name',";
         jq "          'elevation': 1000,";
         jq "          'coordinates': {";
         jq "            'latitude': 28.1234,";
         jq "            'longitude': 83.5678";
         py "          },";
         jq "          'highlight': 'Main feature',";
         jq "          'description': {";
         jq "            'trekking_duration': 'Approximate trekking duration.',";
         jq "            'key_highlights': [";
         jq "              'Scenic views, cultural experiences, or notable landmarks.'";
         py "            ],";
         jq "            'permits': 'Information about required permits.',";
         jq "            'best_time_to_visit': 'Best time to visit.',";
         jq "            'difficulty_level': 'Brief overview of difficulty level.',";
         jq "            'tips': [";
         jq "              'Additional tips or recommendations for trekkers (e.g., packing essentials, acclimatization advice, pass).'";
         py "            ]";
         py "          }";
         py "        }";
         py "      ]";
         py "    }";
         py "    Do not write anything else, not even ```json or ```." ]
  ++ py "    ".

(** [main_llm.invoke(...)]: [main_llm] is [None] when the start-up could not
    configure it. *)
Definition invoke_main_llm (main_llm : option Llm) (input : LlmInput) : M Response :=
  match main_llm with
  | None => raise (Exn AttributeError (py "'NoneType' object has no attribute 'invoke'"))
  | Some llm => call llm input
  end.

Definition error_dict (message : str) : pyval :=
  PDict [(py "error", PStr message)].

Definition empty_response_message : str := py "Empty response received from model.".

(** Lines 85-90: the text handed to [json.loads]. *)
Definition json_str (content : str) : str :=
  strip
    (replace
       (replace (replace content (py "```json") []) (py "```") [])
       (py "<tool-use></tool-use>") []).

(** Lines 85-91: clean-up, then the strict parse. *)
Definition sanitize_and_parse (content : str) : Exc pyval :=
  Json.loads (json_str content).

Definition generate_itinerary (main_llm : option Llm) (destination : str) : M pyval :=
  try_except
    (response <- invoke_main_llm main_llm (Prompt (prompt_of destination)) ;;
     match strip (response_content response) with
     | [] => ret (error_dict empty_response_message)
     | _ :: _ => lift (sanitize_and_parse (response_content response))
     end)
    (fun e => ret (error_dict (exn_str e))).

(** ** The registry of tools (lines 96-97) *)

(** A tool as [handle_tool_calls] uses it: [t.name] and [t.invoke(args)]. *)
Record Tool : Type := { name : str; invoke : pyval -> M pyval }.

(** What langchain_core takes for a tool call among the arguments of
    [invoke]: a dict with ["type": "tool_call"].  The wrapper answers such
    arguments with a [ToolMessage], which is no value of [pyval]. *)
Definition is_tool_call (args : pyval) : bool :=
  match args with
  | PDict d =>
      match dict_get d (py "type") with
      | Some (PStr t) => str_eqb t (py "tool_call")
      | _ => false
      end
  | _ => false
  end.

(** The [@tool] wrapper of [generate_itinerary].  Its validation of the
    arguments belongs to langchain_core and is a parameter here:
    [parse_input args] is the destination the function is called with, or
    the exception the wrapper raises.  For arguments that are no tool call
    ([is_tool_call]) the wrapper returns what the function returns. *)
Definition generate_itinerary_tool
    (parse_input : pyval -> Exc str) (main_llm : option Llm) : Tool :=
  {| name := py "generate_itinerary";
     invoke := fun args =>
       destination <- lift (parse_input args) ;;
       generate_itinerary main_llm destination |}.

(** [tools = [generate_itinerary]] *)
Definition tools (parse_input : pyval -> Exc str) (main_llm : option Llm) : list Tool :=
  [generate_itinerary_tool parse_input main_llm].

(** An instance of the validation, for concrete runs: a dict with a string
    under ["destination"] is accepted, and so is a bare string, taken as
    the destination; anything else is refused.  The message of a refusal
    is cut to its first line. *)
Definition destination_input (args : pyval) : Exc str :=
  match args with
  | PDict d =>
      match dict_get d (py "destination") with
      | Some (PStr destination) => Return destination
      | _ => Raise (Exn OtherException (py "1 validation error for generate_itinerary"))
      end
  | PStr destination => Return destination
  | _ => Raise (Exn OtherException (py "1 validation error for generate_itinerary"))
  end.

(** ** [handle_tool_calls] (lines 100-126) *)

(** [{t.name: t for t in tools}] *)
Definition tool_map (registry : list Tool) : dict_of Tool :=
  fold_left (fun m t => dict_set m (name t) t) registry [].

Definition no_tool_calls : dict := [(py "status", PStr (py "no_tool_calls"))].

Definition not_found (func_name : str) : dict :=
  [(py "tool", PStr func_name); (py "status", PStr (py "not_found"))].

Definition invalid_json (func_name : str) : dict :=
  [(py "tool", PStr func_name); (py "status", PStr (py "invalid_json"))].

Definition success (func_name : str) (args tool_result : pyval) : dict :=
  [(py "tool", PStr func_name); (py "arguments", args); (py "result", tool_result)].

Definition failure (func_name : str) (e : exn) : dict :=
  [(py "tool", PStr func_name); (py "error", PStr (exn_str e))].

(** One turn of the loop of lines 108-124: the [try] with its two [except]
    clauses, on the list of results so far. *)
Definition handle_tool_call
    (tm : dict_of Tool) (tc : RawToolCall) (results : list dict) : M (list dict) :=
  let func_name := function_name tc in
  try_except
    (args <- lift (Json.loads (function_arguments tc)) ;;
     match dict_get tm func_name with
     | None => ret (results ++ [not_found func_name])
     | Some t =>
         tool_result <- invoke t args ;;
         ret (results ++ [success func_name args tool_result])
     end)
    (fun e =>
       if is_JSONDecodeError e
       then ret (results ++ [invalid_json func_name])
       else ret (results ++ [failure func_name e])).

Fixpoint for_tool_calls
    (tm : dict_of Tool) (tcs : list RawToolCall) (results : list dict) : M (list dict) :=
  match tcs with
  | [] => ret results
  | tc :: rest =>
      results' <- handle_tool_call tm tc results ;;
      for_tool_calls tm rest results'
  end.

Definition handle_tool_calls (registry : list Tool) (response : AIMessage) : M (list dict) :=
  match additional_kwargs_tool_calls response with
  | None | Some [] => ret [no_tool_calls]
  | Some tcs => for_tool_calls (tool_map registry) tcs []
  end.

(** ** Start-up (lines 20-35) *)

Definition placeholder_key : str := py "your_groq_api_key_here".

(** [main_llm] after the start-up: [getenv] is [os.getenv("GROQ_API_KEY")],
    [ChatGroq] the constructor of the client. *)
Definition init_main_llm (getenv : option str) (ChatGroq : str -> Exc Llm) : option Llm :=
  match getenv with
  | None => None
  | Some api_key =>
      match api_key with
      | [] => None
      | _ :: _ =>
          if str_eqb api_key placeholder_key then None
          else
            match ChatGroq api_key with
            | Return llm => Some llm
            | Raise _ => None
            end
      end
  end.

(** ** [generate_itinerary_api] (lines 130-181) *)

(** A Flask response: [jsonify(body)] with its status code. *)
Record HttpResponse : Type := { body : pyval; status : nat }.

Definition jsonify (v : pyval) (code : nat) : HttpResponse :=
  {| body := v; status := code |}.

(** The request, as the handler reads it: what [request.get_json()]
    returns or raises. *)
Record Request : Type := { get_json : Exc pyval }.

Definition no_attribute (v : pyval) (attr : str) : exn :=
  Exn AttributeError
      (py "'" ++ type_name v ++ py "' object has no attribute '" ++ attr ++ py "'").

(** [data.get("query", "").strip()] *)
Definition query_of (data : pyval) : Exc str :=
  match data with
  | PDict d =>
      match dict_get d (py "query") with
      | None => Return (strip [])
      | Some (PStr q) => Return (strip q)
      | Some v => Raise (no_attribute v (py "strip"))
      end
  | _ => Raise (no_attribute data (py "get"))
  end.

Definition unavailable_message : str :=
  py "Service temporarily unavailable. Please configure GROQ_API_KEY environment variable.".

Definition system_prompt : str :=
  py "You are a friendly travel expert. Use tools only when asked for specific itineraries.".

(** The loop of lines 166-170: the response it returns, or [None] when it
    runs to its end. *)
Fixpoint first_response (tool_results : list dict) : option HttpResponse :=
  match tool_results with
  | [] => None
  | result :: rest =>
      match dict_get result (py "result") with
      | Some r => Some (jsonify (PDict [(py "itinerary", r)]) 200)
      | None =>
          match dict_get result (py "error") with
          | Some e => Some (jsonify (PDict [(py "error", e)]) 400)
          | None => first_response rest
          end
      end
  end.

(** The handler returns a response, or [None] when it reaches the end of
    its body without a [return]. *)
Definition generate_itinerary_api
    (main_llm : option Llm) (registry : list Tool) (request : Request)
  : M (option HttpResponse) :=
  try_except
    (match main_llm with
     | None => ret (Some (jsonify (error_dict unavailable_message) 503))
     | Some llm =>
         data <- lift (get_json request) ;;
         user_input <- lift (query_of data) ;;
         match user_input with
         | [] => ret (Some (jsonify (error_dict (py "No query provided")) 400))
         | _ :: _ =>
             response <- call llm (Chat (List.map name registry)
                                        [SystemMessage system_prompt;
                                         HumanMessage user_input]) ;;
             match response with
             | IsAIMessage m =>
                 match tool_calls m with
                 | _ :: _ =>
                     tool_results <- handle_tool_calls registry m ;;
                     ret (first_response tool_results)
                 | [] => ret (Some (jsonify (PDict [(py "response", PStr (content m))]) 200))
                 end
             | NotAIMessage _ =>
                 ret (Some (jsonify (error_dict (py "Unexpected response format")) 500))
             end
         end
     end)
    (fun e =>
       if is_LangChainException e
       then ret (Some (jsonify (error_dict (py "System error: " ++ exn_str e)) 500))
       else ret (Some (jsonify (error_dict (py "Unexpected error: " ++ exn_str e)) 500))).

(** ** What the dispatch records, as a relation

    [recorded tm tc k o k']: from the state [k], the turn of the loop for
    the tool call [tc] appends the outcome [o] and leaves the state [k']. *)
Inductive recorded (tm : dict_of Tool) (tc : RawToolCall) (k : nat) : dict -> nat -> Prop :=
| recorded_unparsed (e : exn) :
    Json.loads (function_arguments tc) = Raise e ->
    recorded tm tc k
             (if is_JSONDecodeError e
              then invalid_json (function_name tc)
              else failure (function_name tc) e) k
| recorded_not_found (args : pyval) :
    Json.loads (function_arguments tc) = Return args ->
    dict_get tm (function_name tc) = None ->
    recorded tm tc k (not_found (function_name tc)) k
| recorded_success (args : pyval) (t : Tool) (tool_result : pyval) (k' : nat) :
    Json.loads (function_arguments tc) = Return args ->
    dict_get tm (function_name tc) = Some t ->
    invoke t args k = (Return tool_result, k') ->
    recorded tm tc k (success (function_name tc) args tool_result) k'
| recorded_raised (args : pyval) (t : Tool) (e : exn) (k' : nat) :
    Json.loads (function_arguments tc) = Return args ->
    dict_get tm (function_name tc) = Some t ->
    invoke t args k = (Raise e, k') ->
    recorded tm tc k
             (if is_JSONDecodeError e
              then invalid_json (function_name tc)
              else failure (function_name tc) e) k'.

(** One outcome per tool call, in the order of the calls. *)
Inductive recorded_all (tm : dict_of Tool) : list RawToolCall -> nat -> list dict -> nat -> Prop :=
| recorded_nil (k : nat) : recorded_all tm [] k [] k
| recorded_cons (tc : RawToolCall) (tcs : list RawToolCall) (k k1 k2 : nat)
                (o : dict) (os : list dict) :
    recorded tm tc k o k1 ->
    recorded_all tm tcs k1 os k2 ->
    recorded_all tm (tc :: tcs) k (o :: os) k2.

(** An outcome with neither a ["result"] nor an ["error"]. *)
Definition status_only (o : dict) : Prop :=
  dict_get o (py "result") = None /\ dict_get o (py "error") = None.

(** The credential with which the start-up leaves [main_llm] unset. *)
Definition unconfigured (getenv : option str) : Prop :=
  getenv = None \/ getenv = Some [] \/ getenv = Some placeholder_key.

(** ** Spec-level reading of the clean-up

    [removes_all old s r]: [r] is [s] without the occurrences of [old],
    found from the left, one after the other. *)
Inductive removes_all (old : str) : str -> str -> Prop :=
| removes_nil : removes_all old [] []
| removes_match (s r : str) :
    s <> [] ->
    startswith old s = true ->
    removes_all old (skipn (List.length old) s) r ->
    removes_all old s r
| removes_keep (c : char) (t r : str) :
    startswith old (c :: t) = false ->
    removes_all old t r ->
    removes_all old (c :: t) (c :: r).

Definition starts_with_space (s : str) : Prop :=
  exists c t, s = c :: t /\ isspace c = true.

Definition ends_with_space (s : str) : Prop :=
  exists t c, s = t ++ [c] /\ isspace c = true.

(** [trimmed s r]: [r] is [s] without its leading and trailing whitespace. *)
Definition trimmed (s r : str) : Prop :=
  (exists a b, s = a ++ r ++ b /\ Forall (fun c => isspace c = true) a
                             /\ Forall (fun c => isspace c = true) b)
  /\ ~ starts_with_space r /\ ~ ends_with_space r.

End Service.

(** ** Concrete runs *)

Module Run.

Definition pokhara_request : Request :=
  {| get_json := Return (PDict [(py "query", PStr (py "Plan a 3-day trip to Pokhara"))]) |}.

Definition itinerary_call (arguments : str) : RawToolCall :=
  {| function_name := py "generate_itinerary"; function_arguments := arguments |}.

(** The model proposes two invocations, the first without a destination;
    asked for the itinerary, it answers with a JSON document. *)
Definition two_calls : AIMessage :=
  {| content := [];
     tool_calls :=
       [ {| call_name := py "generate_itinerary"; call_args := PDict [] |};
         {| call_name := py "generate_itinerary";
            call_args := PDict [(py "destination", PStr (py "Pokhara"))] |} ];
     additional_kwargs_tool_calls :=
       Some [ itinerary_call (py "{}");
              itinerary_call (jq "{'destination': 'Pokhara'}") ] |}.

Definition two_calls_llm : Llm :=
  fun k input =>
    match input with
    | Chat _ _ => Return (IsAIMessage two_calls)
    | Prompt _ =>
        Return (IsAIMessage {| content := jq "{'itinerary': []}";
                               tool_calls := [];
                               additional_kwargs_tool_calls := None |})
    end.

(** The model proposes a tool that is not registered, with arguments that
    are not JSON. *)
Definition unknown_call : RawToolCall :=
  {| function_name := py "book_flight"; function_arguments := py "{not json" |}.

Definition unknown_message : AIMessage :=
  {| content := [];
     tool_calls := [ {| call_name := py "book_flight"; call_args := PDict [] |} ];
     additional_kwargs_tool_calls := Some [unknown_call] |}.

(** The same tool, with arguments that are JSON. *)
Definition unknown_call_json : RawToolCall :=
  {| function_name := py "book_flight"; function_arguments := py "{}" |}.

Definition unknown_message_json : AIMessage :=
  {| content := [];
     tool_calls := [ {| call_name := py "book_flight"; call_args := PDict [] |} ];
     additional_kwargs_tool_calls := Some [unknown_call_json] |}.

Definition unknown_llm : Llm :=
  fun k input => Return (IsAIMessage unknown_message_json).

(** The model answers the prompt with [content]. *)
Definition answers (text : str) : Llm :=
  fun k input =>
    Return (IsAIMessage {| content := text; tool_calls := [];
                           additional_kwargs_tool_calls := None |}).

(** A fence and nothing else. *)
Definition only_fences : str := py "```json" ++ [10%N] ++ py "```".

(** A JSON document whose text value holds a fence. *)
Definition fence_inside : str := jq "{'a':'```'}".

End Run.

(** ** Notions for the further properties *)

(** [response.additional_kwargs.get("tool_calls")], an absent key read as
    the empty list. *)
Definition raw_tool_calls (response : AIMessage) : list RawToolCall :=
  match additional_kwargs_tool_calls response with
  | Some tcs => tcs
  | None => []
  end.

(** How many of the keys ["result"], ["error"] and ["status"] an outcome
    holds. *)
Definition present (key : str) (o : dict) : nat :=
  match dict_get o key with Some _ => 1 | None => 0 end.

Definition payloads (o : dict) : nat :=
  present (py "result") o + present (py "error") o + present (py "status") o.

(** The body of the responses of lines 178-181. *)
Definition caught_message (e : exn) : str :=
  (if is_LangChainException e then py "System error: " else py "Unexpected error: ")
  ++ exn_str e.

(** [subseq a b]: [a] is [b] with some of its characters left out. *)
Inductive subseq : str -> str -> Prop :=
| subseq_nil : subseq [] []
| subseq_keep (c : char) (a b : str) : subseq a b -> subseq (c :: a) (c :: b)
| subseq_drop (c : char) (a b : str) : subseq a b -> subseq a (c :: b).

(** [old in s] *)
Fixpoint contains (old s : str) : bool :=
  startswith old s
  || match s with
     | [] => false
     | _ :: t => contains old t
     end.

Module Cases.

Definition blank_request : Request :=
  {| get_json := Return (PDict [(py "query", PStr (py "   "))]) |}.

Definition list_request : Request := {| get_json := Return (PList []) |}.

Definition number_request : Request :=
  {| get_json := Return (PDict [(py "query", PInt 5)]) |}.

Definition unreadable_request : Request :=
  {| get_json := Raise (Exn OtherException (py "400 Bad Request")) |}.

(** A model whose answer is not an [AIMessage]. *)
Definition other_llm : Llm := fun k input => Return (NotAIMessage (py "chunk")).

(** A model whose client raises. *)
Definition failing_llm : Llm :=
  fun k input => Raise (Exn LangChainException (py "rate limit reached")).

(** A tool that raises a [JSONDecodeError] of its own. *)
Definition decoding_tool : Tool :=
  {| name := py "lookup";
     invoke := fun args =>
       raise (Exn JSONDecodeError (py "Expecting value: line 1 column 1 (char 0)")) |}.

(** A tool that raises another exception. *)
Definition broken_tool : Tool :=
  {| name := py "lookup";
     invoke := fun args => raise (Exn OtherException (py "connection reset")) |}.

(** The unregistered tool, with an integer of 4301 digits for arguments,
    and with 1001 opening brackets. *)
Definition long_integer_call : RawToolCall :=
  {| function_name := py "book_flight";
     function_arguments := List.repeat 49%N 4301 |}.

Definition deep_call : RawToolCall :=
  {| function_name := py "book_flight";
     function_arguments := List.repeat 91%N 1001 |}.

Definition lookup_call : RawToolCall :=
  {| function_name := py "lookup"; function_arguments := py "{}" |}.

(** The model proposes the itinerary tool for Pokhara and answers the
    tool's prompt with [answer]. *)
Definition one_call : AIMessage :=
  {| content := [];
     tool_calls :=
       [ {| call_name := py "generate_itinerary";
            call_args := PDict [(py "destination", PStr (py "Pokhara"))] |} ];
     additional_kwargs_tool_calls :=
       Some [ Run.itinerary_call (jq "{'destination': 'Pokhara'}") ] |}.

Definition itinerary_llm (answer : str) : Llm :=
  fun k input =>
    match input with
    | Chat _ _ => Return (IsAIMessage one_call)
    | Prompt _ =>
        Return (IsAIMessage {| content := answer; tool_calls := [];
                               additional_kwargs_tool_calls := None |})
    end.

End Cases.

(** CPython's defaults, for the concrete runs: integers of up to 4300
    digits, and the default recursion limit of 1000 as the depth left to
    the decoder. *)
#[export] Instance cpython_defaults : Interp :=
  {| int_max_str_digits := 4300; recursion_budget := 1000 |}.

(** ** Sample evaluations *)

Example replace_fence :
  replace (py "```json{}```") (py "```json") [] = py "{}```".
Proof. reflexivity. Qed.

(** Occurrences are taken from the left and do not overlap. *)
Example replace_leftmost : replace (py "aaaa") (py "aaa") [] = py "a".
Proof. reflexivity. Qed.

Example strip_both_ends : strip (py "  a b  ") = py "a b".
Proof. reflexivity. Qed.

(** Each substring is removed in one pass: the removal of the tag can leave
    a fence behind. *)
Example json_str_one_pass :
  json_str (py "``<tool-use></tool-use>`[]") = py "```[]".
Proof. reflexivity. Qed.

Example prompt_of_head :
  firstn 50 (prompt_of (py "Pokhara"))
  = [10%N] ++ py "    Create an itinerary for Pokhara including:" ++ [10%N]
    ++ py "  ".
Proof. reflexivity. Qed.

Example loads_object :
  Json.loads (jq "{'a': [1, -2.5e3, true, null, 'A\n'], 'a': 'x'}")
  = Return (PDict [(py "a", PStr (py "x"))]).
Proof. vm_compute. reflexivity. Qed.

Example loads_list :
  Json.loads (jq " [1, -2.5e3, true, null, 'A\n', {}] ")
  = Return (PList [PInt 1; PFloat (py "-2.5e3"); PBool true; PNone; PStr [65%N; 10%N]; PDict []]).
Proof. vm_compute. reflexivity. Qed.

Example loads_bad :
  Json.loads (py "{not valid json")
  = Raise (Exn JSONDecodeError (py "Expecting property name enclosed in double quotes: line 1 column 2 (char 1)")).
Proof. vm_compute. reflexivity. Qed.

(** The limits of the interpreter: an integer of 4301 digits, and 1001
    arrays one inside the other. *)
Example loads_long_integer :
  Json.loads (List.repeat 49%N 4301)
  = Raise (Exn ValueError (py "Exceeds the limit (4300 digits) for integer string conversion: value has 4301 digits; use sys.set_int_max_str_digits() to increase the limit")).
Proof. vm_compute. reflexivity. Qed.

Example loads_deep_nesting :
  Json.loads (List.repeat 91%N 1001)
  = Raise (Exn RecursionError (py "maximum recursion depth exceeded while decoding a JSON array from a unicode string")).
Proof. vm_compute. reflexivity. Qed.

(** The dispatch records the exception of such a parse as an error. *)
Example dispatch_deep_arguments :
  handle_tool_call (tool_map (tools destination_input None)) Cases.deep_call [] 0
  = (Return [[(py "tool", PStr (py "book_flight"));
              (py "error",
               PStr (py "maximum recursion depth exceeded while decoding a JSON array from a unicode string"))]],
     0).
Proof. vm_compute. reflexivity. Qed.

Example loads_empty :
  Json.loads [] = Raise (Exn JSONDecodeError (py "Expecting value: line 1 column 1 (char 0)")).
Proof. vm_compute. reflexivity. Qed.

(** ** Facts about [replace] and [strip] *)

Module StrFacts.

Lemma str_eqb_refl (a : str) : str_eqb a a = true.
Proof.
  induction a as [|x a IH]; simpl; [reflexivity|].
  rewrite N.eqb_refl. exact IH.
Qed.

Lemma str_eqb_eq (a b : str) : str_eqb a b = true <-> a = b.
Proof.
  split; [|intros ->; apply str_eqb_refl].
  revert b. induction a as [|x a IH]; intros [|y b]; simpl; try discriminate;
    [reflexivity|].
  intros H. apply andb_prop in H. destruct H as [Hx Hab].
  apply N.eqb_eq in Hx. subst y. f_equal. apply IH. exact Hab.
Qed.

(** Dropping the rest of a matched occurrence is skipping it. *)
Lemma replace_from_skipn (old new : str) (s : str) :
  forall skip, replace_from old new skip s = replace_from old new 0 (skipn skip s).
Proof.
  induction s as [|c t IH]; intros skip.
  - destruct skip; reflexivity.
  - destruct skip as [|k]; [reflexivity|].
    simpl skipn. rewrite <- IH. reflexivity.
Qed.

(** The equations of [replace], for a pattern that is not empty. *)
Lemma replace_nil (o : char) (old new : str) : replace [] (o :: old) new = [].
Proof. reflexivity. Qed.

Lemma replace_match (o : char) (old new s : str) :
  s <> [] ->
  startswith (o :: old) s = true ->
  replace s (o :: old) new
  = new ++ replace (skipn (List.length (o :: old)) s) (o :: old) new.
Proof.
  intros Hs Hm. destruct s as [|c t]; [congruence|].
  unfold replace. cbn [replace_from]. rewrite Hm.
  rewrite replace_from_skipn. reflexivity.
Qed.

Lemma replace_keep (old new : str) (c : char) (t : str) :
  startswith old (c :: t) = false ->
  replace (c :: t) old new = c :: replace t old new.
Proof.
  intros Hm. unfold replace. cbn [replace_from]. rewrite Hm. reflexivity.
Qed.

(** [s.replace(old, "")] removes the occurrences of [old]. *)
Lemma replace_removes_all (o : char) (old : str) (s : str) :
  removes_all (o :: old) s (replace s (o :: old) []).
Proof.
  remember (List.length s) as n eqn:Hn.
  revert s Hn. induction n as [n IH] using lt_wf_ind. intros s Hn.
  destruct s as [|c t]; [apply removes_nil|].
  destruct (startswith (o :: old) (c :: t)) eqn:Hm.
  - rewrite replace_match by (congruence || exact Hm). simpl app.
    apply removes_match; [discriminate|exact Hm|].
    eapply IH; [|reflexivity].
    subst n. simpl. rewrite length_skipn. lia.
  - rewrite replace_keep by exact Hm.
    apply removes_keep; [exact Hm|].
    eapply IH; [|reflexivity]. subst n. simpl. lia.
Qed.

(** [removes_all] determines its result. *)
Lemma removes_all_functional (old s r1 r2 : str) :
  removes_all old s r1 -> removes_all old s r2 -> r1 = r2.
Proof.
  intros H1. revert r2.
  induction H1 as [|s r Hs Hm H IH|c t r Hm H IH]; intros r2 H2.
  - inversion H2; subst; [reflexivity|congruence].
  - inversion H2; subst; [congruence|apply IH; assumption|congruence].
  - inversion H2; subst; [congruence|f_equal; apply IH; assumption].
Qed.

Lemma lstrip_split (s : str) :
  exists a, s = a ++ lstrip s /\ Forall (fun c => isspace c = true) a.
Proof.
  induction s as [|c t (a & Ha & Hf)]; simpl.
  - exists []. split; [reflexivity|constructor].
  - destruct (isspace c) eqn:Hc.
    + exists (c :: a). split; [simpl; congruence|constructor; assumption].
    + exists []. split; [reflexivity|constructor].
Qed.

Lemma lstrip_head (s : str) : ~ starts_with_space (lstrip s).
Proof.
  induction s as [|c t IH]; simpl.
  - intros (c & t & E & _). discriminate.
  - destruct (isspace c) eqn:Hc; [exact IH|].
    intros (c' & t' & E & Hs). inversion E; subst. congruence.
Qed.

Lemma rstrip_split (s : str) :
  exists b, s = rstrip s ++ b /\ Forall (fun c => isspace c = true) b.
Proof.
  unfold rstrip. destruct (lstrip_split (rev s)) as (a & Ha & Hf).
  exists (rev a). split.
  - rewrite <- rev_app_distr, <- Ha, rev_involutive. reflexivity.
  - apply Forall_rev. exact Hf.
Qed.

Lemma rstrip_last (s : str) : ~ ends_with_space (rstrip s).
Proof.
  unfold rstrip. intros (t & c & E & Hc).
  apply (lstrip_head (rev s)). exists c, (rev t). split; [|exact Hc].
  rewrite <- (rev_involutive (lstrip (rev s))), E, rev_app_distr. reflexivity.
Qed.

(** [s.strip()] is [s] without its leading and trailing whitespace. *)
Lemma strip_trimmed (s : str) : trimmed s (strip s).
Proof.
  unfold strip.
  destruct (lstrip_split s) as (a & Ha & Hfa).
  destruct (rstrip_split (lstrip s)) as (b & Hb & Hfb).
  split; [|split].
  - exists a, b. split; [|split; assumption]. rewrite <- Hb. exact Ha.
  - intros (c & t & E & Hc). apply (lstrip_head s).
    exists c, (t ++ b). split; [|exact Hc]. rewrite Hb, E. reflexivity.
  - apply rstrip_last.
Qed.

End StrFacts.

(** ** Facts about the decoder *)

Module JsonFacts.
Import Json.

Lemma skip_ws_length (s : str) : List.length (skip_ws s) <= List.length s.
Proof.
  induction s as [|c t IH]; simpl; [lia|].
  destruct (is_ws c); simpl; lia.
Qed.

Lemma span_digits_length (s : str) :
  List.length (snd (span_digits s)) <= List.length s.
Proof.
  induction s as [|c t IH]; simpl; [lia|].
  destruct (is_digit c); simpl; [|lia].
  destruct (span_digits t) as [d r]; simpl in *; lia.
Qed.

Lemma skipn_cons_length (n : nat) (c : char) (t : str) :
  List.length (skipn (S n) (c :: t)) < List.length (c :: t).
Proof.
  simpl. rewrite length_skipn. lia.
Qed.

Ltac break_match :=
  match goal with
  | |- context [match ?x with _ => _ end] =>
      match type of x with
      | sumbool _ _ => destruct x
      | _ => destruct x eqn:?
      end
  | |- context [if ?x then _ else _] => destruct x eqn:?
  end.

(** A string scan ends after its closing quote. *)
Lemma scanstring_length (n : nat) :
  forall (s : str) (begin : nat) (acc : str),
    List.length s <= n ->
    scanstring begin acc s <> OutOfFuel /\
    forall k r, scanstring begin acc s = Ok k r -> List.length r < List.length s.
Proof.
  induction n as [|n IH]; intros s begin acc Hlen.
  - destruct s; [|simpl in Hlen; lia]. simpl. split; [discriminate|discriminate].
  - destruct s as [|c t]; [simpl; split; discriminate|].
    simpl in Hlen.
    assert (Hsub : forall s' acc', List.length s' <= List.length t ->
               scanstring begin acc' s' <> OutOfFuel /\
               forall k r, scanstring begin acc' s' = Ok k r ->
                           List.length r < List.length (c :: t)).
    { intros s' acc' Hs'. destruct (IH s' begin acc') as [H1 H2]; [lia|].
      split; [exact H1|]. intros k r Hk. apply H2 in Hk. simpl. lia. }
    cbn [scanstring].
    repeat break_match; subst;
      try (split; [discriminate | intros k r Hk; inversion Hk; subst; simpl; lia]);
      try (split; [discriminate | discriminate]);
      apply Hsub; simpl; lia.
Qed.

Lemma take_sign_length (s : str) :
  List.length (snd (take_sign s)) <= List.length s.
Proof.
  destruct s as [|c t]; simpl; [lia|].
  destruct (c =? 45)%N; simpl; lia.
Qed.

Lemma take_int_length (s ds r : str) :
  take_int s = Some (ds, r) -> List.length r < List.length s.
Proof.
  destruct s as [|c t]; simpl; [discriminate|].
  pose proof (span_digits_length t) as Hl.
  destruct (span_digits t) as [d r']; simpl in Hl.
  destruct ((49 <=? c) && (c <=? 57))%N.
  - intros E; inversion E; subst; lia.
  - destruct (c =? 48)%N; [|discriminate].
    intros E; inversion E; subst; lia.
Qed.

Lemma take_frac_length (s : str) :
  List.length (snd (take_frac s)) <= List.length s.
Proof.
  destruct s as [|p [|d t]]; simpl; try lia.
  pose proof (span_digits_length t) as Hl.
  destruct (span_digits t) as [ds r]; simpl in Hl.
  destruct ((p =? 46)%N && is_digit d); simpl; lia.
Qed.

Lemma take_exp_length (s : str) :
  List.length (snd (take_exp s)) <= List.length s.
Proof.
  destruct s as [|e t]; simpl; [lia|].
  destruct ((e =? 101) || (e =? 69))%N; simpl; [|lia].
  destruct t as [|x y].
  - simpl. lia.
  - pose proof (span_digits_length y) as Hy.
    pose proof (span_digits_length (x :: y)) as Hxy.
    destruct ((x =? 45) || (x =? 43))%N.
    + destruct (span_digits y) as [[|d ds] r]; simpl in *; lia.
    + destruct (span_digits (x :: y)) as [[|d ds] r]; simpl in *; lia.
Qed.

(** A string scan raises nothing but a [JSONDecodeError]. *)
Lemma scanstring_no_fail (n : nat) :
  forall (s : str) (begin : nat) (acc : str) (e : exn),
    List.length s <= n -> scanstring begin acc s <> Fail e.
Proof.
  induction n as [|n IH]; intros s begin acc e Hlen.
  - destruct s; [discriminate|simpl in Hlen; lia].
  - destruct s as [|c t]; [discriminate|].
    simpl in Hlen. cbn [scanstring].
    repeat break_match; subst; try discriminate; apply IH; simpl in *; lia.
Qed.

Section DecoderFacts.
Context {I : Interp}.

Lemma match_number_length (s : str) (v : Exc pyval) (r : str) :
  match_number s = Some (v, r) -> List.length r < List.length s.
Proof.
  unfold match_number.
  pose proof (take_sign_length s) as H1.
  destruct (take_sign s) as [neg s1]; simpl in H1.
  destruct (take_int s1) as [[ds r0]|] eqn:Hint; [|discriminate].
  apply take_int_length in Hint.
  pose proof (take_frac_length r0) as H2.
  destruct (take_frac r0) as [frac r1]; simpl in H2.
  pose proof (take_exp_length r1) as H3.
  destruct (take_exp r1) as [ex r2]; simpl in H3.
  destruct frac, ex; try destruct (too_many_digits ds);
    intros E; inversion E; subst; lia.
Qed.

Lemma consumes_err (m : str) (p : nat) (s : str) : consumes (Err m p) s.
Proof. split; discriminate. Qed.

Lemma consumes_fail (e : exn) (s : str) : consumes (Fail e) s.
Proof. split; discriminate. Qed.

Lemma consumes_ok (v : pyval) (r s : str) :
  List.length r < List.length s -> consumes (Ok v r) s.
Proof.
  intros H. split; [discriminate|]. intros v' r' E. inversion E; subst. exact H.
Qed.

Lemma consumes_weaken (res : pres pyval) (s s' : str) :
  consumes res s' -> List.length s' <= List.length s -> consumes res s.
Proof.
  intros [H1 H2] Hle. split; [exact H1|].
  intros v r E. apply H2 in E. lia.
Qed.

Lemma scan_fuel (fuel : nat) :
  (forall depth s, 2 * List.length s < fuel -> consumes (scan_once fuel depth s) s) /\
  (forall depth pairs s,
      2 * List.length s < fuel -> consumes (object_loop fuel depth pairs s) s) /\
  (forall depth items s,
      2 * List.length s + 1 < fuel -> consumes (array_loop fuel depth items s) s).
Proof.
  induction fuel as [|fuel IH].
  - repeat split; intros; lia.
  - destruct IH as (IHs & IHo & IHa).
    split; [|split].
    + intros depth s Hlen. destruct s as [|c t]; [apply consumes_err|].
      cbn [scan_once]. simpl in Hlen.
      destruct (c =? 34)%N.
      { destruct (scanstring_length (List.length t) t (List.length (c :: t)) [] (le_n _))
          as [Hne Hlt].
        destruct (scanstring (List.length (c :: t)) [] t) eqn:E;
          [apply consumes_ok; specialize (Hlt _ _ eq_refl); simpl; lia
          |apply consumes_err|apply consumes_fail|congruence]. }
      pose proof (skip_ws_length t) as Hw.
      destruct (c =? 123)%N.
      { destruct depth as [|depth]; [apply consumes_fail|].
        destruct (skip_ws t) as [|c' t'] eqn:E.
        - eapply consumes_weaken; [apply IHo|]; simpl; lia.
        - simpl in Hw. destruct (c' =? 125)%N.
          + apply consumes_ok. simpl. lia.
          + eapply consumes_weaken; [apply IHo|]; simpl; lia. }
      destruct (c =? 91)%N.
      { destruct depth as [|depth]; [apply consumes_fail|].
        destruct (skip_ws t) as [|c' t'] eqn:E.
        - eapply consumes_weaken; [apply IHa|]; simpl; lia.
        - simpl in Hw. destruct (c' =? 93)%N.
          + apply consumes_ok. simpl. lia.
          + eapply consumes_weaken; [apply IHa|]; simpl; lia. }
      repeat match goal with
      | |- context [startswith ?p ?x] =>
          destruct (startswith p x);
            [apply consumes_ok; apply skipn_cons_length|]
      end.
      destruct (match_number (c :: t)) as [[[v|e] r]|] eqn:E;
        [|apply consumes_fail|apply consumes_err].
      apply consumes_ok. eapply match_number_length; eassumption.
    + intros depth pairs s Hlen. destruct s as [|c t]; [apply consumes_err|].
      cbn [object_loop]. simpl in Hlen.
      destruct (negb (c =? 34)%N); [apply consumes_err|].
      destruct (scanstring_length (List.length t) t (List.length (c :: t)) [] (le_n _))
        as [Hne Hlt].
      destruct (scanstring (List.length (c :: t)) [] t) as [key r|m p|e|] eqn:E;
        [|apply consumes_err|apply consumes_fail|congruence].
      specialize (Hlt _ _ eq_refl).
      pose proof (skip_ws_length r) as Hr.
      destruct (skip_ws r) as [|c1 t1]; [apply consumes_err|].
      simpl in Hr.
      destruct (negb (c1 =? 58)%N); [apply consumes_err|].
      pose proof (skip_ws_length t1) as Ht1.
      destruct (IHs depth (skip_ws t1)) as [Hne1 Hlt1]; [lia|].
      destruct (scan_once fuel depth (skip_ws t1)) as [val r3|m p|e|] eqn:E1;
        [|apply consumes_err|apply consumes_fail|congruence].
      specialize (Hlt1 _ _ eq_refl).
      pose proof (skip_ws_length r3) as Hr3.
      destruct (skip_ws r3) as [|c4 t4]; [apply consumes_err|].
      simpl in Hr3.
      destruct (c4 =? 125)%N; [apply consumes_ok; simpl; lia|].
      destruct (c4 =? 44)%N; [|apply consumes_err].
      pose proof (skip_ws_length t4) as Ht4.
      eapply consumes_weaken; [apply IHo|]; simpl; lia.
    + intros depth items s Hlen.
      cbn [array_loop].
      destruct (IHs depth s) as [Hne Hlt]; [lia|].
      destruct (scan_once fuel depth s) as [val r|m p|e|] eqn:E;
        [|apply consumes_err|apply consumes_fail|congruence].
      specialize (Hlt _ _ eq_refl).
      pose proof (skip_ws_length r) as Hr.
      destruct (skip_ws r) as [|c t]; [apply consumes_err|].
      simpl in Hr.
      destruct (c =? 93)%N; [apply consumes_ok; simpl; lia|].
      destruct (c =? 44)%N; [|apply consumes_err].
      pose proof (skip_ws_length t) as Ht.
      eapply consumes_weaken; [apply IHa|]; simpl; lia.
Qed.

(** The exceptions of a scan are the two that the limits of the
    interpreter give. *)
Lemma scan_fails (fuel : nat) :
  (forall depth s e,
      scan_once fuel depth s = Fail e ->
      exn_cls e = ValueError \/ exn_cls e = RecursionError) /\
  (forall depth pairs s e,
      object_loop fuel depth pairs s = Fail e ->
      exn_cls e = ValueError \/ exn_cls e = RecursionError) /\
  (forall depth items s e,
      array_loop fuel depth items s = Fail e ->
      exn_cls e = ValueError \/ exn_cls e = RecursionError).
Proof.
  induction fuel as [|fuel (IHs & IHo & IHa)].
  - repeat split; intros; discriminate.
  - split; [|split].
    + intros depth s e. destruct s as [|c t]; [discriminate|].
      cbn [scan_once].
      destruct (c =? 34)%N.
      { destruct (scanstring (List.length (c :: t)) [] t) eqn:E; try discriminate.
        exfalso. eapply (scanstring_no_fail (List.length t)); [apply le_n|exact E]. }
      destruct (c =? 123)%N.
      { destruct depth as [|depth]; [intros E; inversion E; right; reflexivity|].
        destruct (skip_ws t) as [|c' t'].
        - apply IHo.
        - destruct (c' =? 125)%N; [discriminate|apply IHo]. }
      destruct (c =? 91)%N.
      { destruct depth as [|depth]; [intros E; inversion E; right; reflexivity|].
        destruct (skip_ws t) as [|c' t'].
        - apply IHa.
        - destruct (c' =? 93)%N; [discriminate|apply IHa]. }
      repeat match goal with
      | |- context [startswith ?p ?x] => destruct (startswith p x); [discriminate|]
      end.
      unfold match_number.
      destruct (take_sign (c :: t)) as [neg s1].
      destruct (take_int s1) as [[ds r]|]; [|discriminate].
      destruct (take_frac r) as [frac r1]. destruct (take_exp r1) as [ex r2].
      destruct frac, ex; try discriminate.
      destruct (too_many_digits ds); [|discriminate].
      intros E. inversion E. left. reflexivity.
    + intros depth pairs s e. destruct s as [|c t]; [discriminate|].
      cbn [object_loop].
      destruct (negb (c =? 34)%N); [discriminate|].
      destruct (scanstring (List.length (c :: t)) [] t) as [key r|m p|e0|] eqn:E;
        try discriminate.
      * destruct (skip_ws r) as [|c1 t1]; [discriminate|].
        destruct (negb (c1 =? 58)%N); [discriminate|].
        destruct (scan_once fuel depth (skip_ws t1)) as [val r3|m p|e1|] eqn:E1;
          try discriminate.
        -- destruct (skip_ws r3) as [|c4 t4]; [discriminate|].
           destruct (c4 =? 125)%N; [discriminate|].
           destruct (c4 =? 44)%N; [apply IHo|discriminate].
        -- intros E2. inversion E2. subst. eapply IHs. exact E1.
      * exfalso. eapply (scanstring_no_fail (List.length t)); [apply le_n|exact E].
    + intros depth items s e. cbn [array_loop].
      destruct (scan_once fuel depth s) as [val r|m p|e1|] eqn:E; try discriminate.
      * destruct (skip_ws r) as [|c t]; [discriminate|].
        destruct (c =? 93)%N; [discriminate|].
        destruct (c =? 44)%N; [apply IHa|discriminate].
      * intros E2. inversion E2. subst. eapply IHs. exact E.
Qed.

(** [json.loads] returns a value, or raises a [JSONDecodeError], or raises
    the [ValueError] or the [RecursionError] of a limit of the
    interpreter. *)
Lemma loads_raises (s : str) (e : exn) :
  loads s = Raise e ->
  exn_cls e = JSONDecodeError \/ exn_cls e = ValueError \/ exn_cls e = RecursionError.
Proof.
  unfold loads.
  destruct (startswith [65279%N] s); [intros E; inversion E; left; reflexivity|].
  destruct (scan_once (S (2 * List.length s)) recursion_budget (skip_ws s))
    as [v r|m p|e0|] eqn:Hs.
  - destruct (skip_ws r); intros E; inversion E; left; reflexivity.
  - intros E; inversion E; left; reflexivity.
  - intros E. inversion E. subst. right.
    eapply (proj1 (scan_fails _)). exact Hs.
  - intros E. inversion E. right. right. reflexivity.
Qed.

End DecoderFacts.

End JsonFacts.

(** ** The registry as a map *)

Module Registry.

Lemma dict_get_set {V : Type} (d : dict_of V) (k n : str) (v : V) :
  dict_get (dict_set d k v) n = if str_eqb k n then Some v else dict_get d n.
Proof.
  induction d as [|[k' v'] d IH]; simpl.
  - reflexivity.
  - destruct (str_eqb k' k) eqn:Hk; simpl.
    + apply StrFacts.str_eqb_eq in Hk. subst k'.
      destruct (str_eqb k n); reflexivity.
    + rewrite IH. destruct (str_eqb k' n) eqn:Hn; [|reflexivity].
      apply StrFacts.str_eqb_eq in Hn. subst k'.
      destruct (str_eqb k n) eqn:Hkn; [|reflexivity].
      apply StrFacts.str_eqb_eq in Hkn. subst k.
      rewrite StrFacts.str_eqb_refl in Hk. discriminate.
Qed.

Lemma fold_set_none (registry : list Tool) (n : str) :
  forall m : dict_of Tool,
    dict_get (fold_left (fun m t => dict_set m (name t) t) registry m) n = None
    <-> dict_get m n = None /\ forall t, In t registry -> name t <> n.
Proof.
  induction registry as [|t registry IH]; intros m; simpl.
  - split; [intros H; split; [exact H|intros t []]|intros [H _]; exact H].
  - rewrite IH, dict_get_set. split.
    + intros [H1 H2]. destruct (str_eqb (name t) n) eqn:Hn; [discriminate|].
      split; [exact H1|]. intros t' [<-|Hin]; [|apply H2; exact Hin].
      intros E. rewrite E, StrFacts.str_eqb_refl in Hn. discriminate.
    + intros [H1 H2]. destruct (str_eqb (name t) n) eqn:Hn.
      * apply StrFacts.str_eqb_eq in Hn. exfalso. apply (H2 t); auto.
      * split; [exact H1|]. intros t' Hin. apply H2. right. exact Hin.
Qed.

(** A name is missing from [tool_map] exactly when no tool of the registry
    bears it. *)
Lemma tool_map_none (registry : list Tool) (n : str) :
  dict_get (tool_map registry) n = None
  <-> forall t, In t registry -> name t <> n.
Proof.
  unfold tool_map. rewrite fold_set_none. simpl. tauto.
Qed.

End Registry.

(** ** The dispatch of tool calls *)

Module Dispatch.

Section Facts.
Context {I : Interp}.

(** A turn of the loop appends one outcome and does not raise. *)
Lemma handle_tool_call_recorded
    (tm : dict_of Tool) (tc : RawToolCall) (results : list dict) (k : nat) :
  exists o k',
    handle_tool_call tm tc results k = (Return (results ++ [o]), k')
    /\ recorded tm tc k o k'.
Proof.
  unfold handle_tool_call, try_except, bind, lift, ret.
  destruct (Json.loads (function_arguments tc)) as [args|e] eqn:Hl.
  - destruct (dict_get tm (function_name tc)) as [t|] eqn:Ht.
    + destruct (invoke t args k) as [[r|e] k'] eqn:Hi.
      * exists (success (function_name tc) args r), k'.
        split; [reflexivity|]. eapply recorded_success; eassumption.
      * exists (if is_JSONDecodeError e
                then invalid_json (function_name tc)
                else failure (function_name tc) e), k'.
        split; [destruct (is_JSONDecodeError e); reflexivity|].
        eapply recorded_raised; eassumption.
    + exists (not_found (function_name tc)), k.
      split; [reflexivity|]. eapply recorded_not_found; eassumption.
  - exists (if is_JSONDecodeError e
            then invalid_json (function_name tc)
            else failure (function_name tc) e), k.
    split; [destruct (is_JSONDecodeError e); reflexivity|].
    eapply recorded_unparsed; eassumption.
Qed.

Lemma for_tool_calls_recorded (tm : dict_of Tool) (tcs : list RawToolCall) :
  forall (results : list dict) (k : nat),
  exists os k',
    for_tool_calls tm tcs results k = (Return (results ++ os), k')
    /\ recorded_all tm tcs k os k'.
Proof.
  induction tcs as [|tc tcs IH]; intros results k.
  - exists [], k. rewrite app_nil_r. split; [reflexivity|constructor].
  - destruct (handle_tool_call_recorded tm tc results k) as (o & k1 & H1 & R1).
    destruct (IH (results ++ [o]) k1) as (os & k2 & H2 & R2).
    exists (o :: os), k2. split.
    + cbn [for_tool_calls]. unfold bind. rewrite H1, H2.
      rewrite <- app_assoc. reflexivity.
    + econstructor; eassumption.
Qed.

Lemma recorded_all_length (tm : dict_of Tool) (tcs : list RawToolCall)
      (k k' : nat) (os : list dict) :
  recorded_all tm tcs k os k' -> List.length os = List.length tcs.
Proof.
  induction 1; simpl; congruence.
Qed.

(** Every outcome names the tool of its call. *)
Lemma recorded_tool (tm : dict_of Tool) (tc : RawToolCall) (k k' : nat) (o : dict) :
  recorded tm tc k o k' -> dict_get o (py "tool") = Some (PStr (function_name tc)).
Proof.
  intros H. destruct H; try reflexivity;
    destruct (is_JSONDecodeError e); reflexivity.
Qed.

End Facts.

End Dispatch.

(** ** The request handler *)

Module Handler.

Section Facts.
Context {I : Interp}.

(** The handler on a request with a query, when the model's answer
    proposes tool calls: the response is what the loop over the outcomes
    returns. *)
Lemma tool_branch
    (llm : Llm) (registry : list Tool) (request : Request) (k k' : nat)
    (data : pyval) (q : str) (m : AIMessage) (outcomes : list dict) :
  get_json request = Return data ->
  query_of data = Return q ->
  q <> [] ->
  llm k (Chat (List.map name registry)
              [SystemMessage system_prompt; HumanMessage q])
  = Return (IsAIMessage m) ->
  tool_calls m <> [] ->
  handle_tool_calls registry m (S k) = (Return outcomes, k') ->
  generate_itinerary_api (Some llm) registry request k
  = (Return (first_response outcomes), k').
Proof.
  intros Hd Hq Hne Hllm Htc Hh.
  unfold generate_itinerary_api, try_except, bind, lift, call, ret.
  rewrite Hd, Hq. destruct q as [|c q]; [congruence|].
  rewrite Hllm. destruct (tool_calls m) as [|tc tcs]; [congruence|].
  rewrite Hh. reflexivity.
Qed.

(** The loop passes over the outcomes that carry neither key. *)
Lemma first_response_skip (pre rest : list dict) :
  Forall status_only pre -> first_response (pre ++ rest) = first_response rest.
Proof.
  induction 1 as [|o pre [Hr He] _ IH]; simpl; [reflexivity|].
  rewrite Hr, He. exact IH.
Qed.

Lemma first_response_none (outcomes : list dict) :
  Forall status_only outcomes -> first_response outcomes = None.
Proof.
  intros H. rewrite <- (app_nil_r outcomes).
  rewrite first_response_skip by exact H. reflexivity.
Qed.

(** The outcomes that hold a status and nothing else carry neither key. *)
Lemma status_outcomes (func_name : str) :
  status_only no_tool_calls /\ status_only (not_found func_name)
  /\ status_only (invalid_json func_name).
Proof. repeat split. Qed.

End Facts.

End Handler.

(** ** The itinerary tool *)

Module Itinerary.

Section Facts.
Context {I : Interp}.

Lemma generate_itinerary_returns (main_llm : option Llm) (destination : str) (k : nat) :
  exists v k',
    generate_itinerary main_llm destination k = (Return v, k')
    /\ match main_llm with
       | None =>
           v = PDict [(py "error",
                       PStr (py "'NoneType' object has no attribute 'invoke'"))]
       | Some llm =>
           match llm k (Prompt (prompt_of destination)) with
           | Raise e => v = PDict [(py "error", PStr (exn_str e))]
           | Return response =>
               match strip (response_content response) with
               | [] =>
                   v = PDict [(py "error",
                               PStr (py "Empty response received from model."))]
               | _ :: _ =>
                   match Json.loads (json_str (response_content response)) with
                   | Raise e => v = PDict [(py "error", PStr (exn_str e))]
                   | Return parsed => v = parsed
                   end
               end
           end
       end.
Proof.
  unfold generate_itinerary, sanitize_and_parse, try_except, bind, invoke_main_llm,
    raise, call, lift, ret.
  destruct main_llm as [llm|].
  - destruct (llm k (Prompt (prompt_of destination))) as [response|e].
    + destruct (strip (response_content response)) as [|c t].
      * eexists _, _. split; reflexivity.
      * destruct (Json.loads (json_str (response_content response))) as [parsed|e];
          eexists _, _; split; reflexivity.
    + eexists _, _. split; reflexivity.
  - eexists _, _. split; reflexivity.
Qed.

(** Parsing the empty text. *)
Lemma parse_of_empty (raw : str) :
  json_str raw = [] ->
  sanitize_and_parse raw
  = Raise (Exn JSONDecodeError (py "Expecting value: line 1 column 1 (char 0)")).
Proof.
  unfold sanitize_and_parse. intros ->. vm_compute. reflexivity.
Qed.

End Facts.

End Itinerary.

(** ** Properties of the service *)

(** C1, as the code has it.  When the model's answer proposes tool calls,
    the handler answers with the first outcome of the dispatch that carries
    a result or an error, whichever of the two it carries: 200 with
    [{"itinerary": result}] for a result, 400 with [{"error": message}] for
    an error.  An error-bearing outcome that comes before every
    result-bearing one is answered with 400. *)
Theorem C1_first_result_or_error {I : Interp}
    (llm : Llm) (registry : list Tool) (request : Request) (k k' : nat)
    (data : pyval) (q : str) (m : AIMessage)
    (outcomes pre post : list dict) (o : dict) :
  get_json request = Return data ->
  query_of data = Return q ->
  q <> [] ->
  llm k (Chat (List.map name registry)
              [SystemMessage system_prompt; HumanMessage q])
  = Return (IsAIMessage m) ->
  tool_calls m <> [] ->
  handle_tool_calls registry m (S k) = (Return outcomes, k') ->
  outcomes = pre ++ o :: post ->
  Forall status_only pre ->
  (forall r, dict_get o (py "result") = Some r ->
             generate_itinerary_api (Some llm) registry request k
             = (Return (Some {| body := PDict [(py "itinerary", r)];
                                status := 200 |}), k'))
  /\ (forall e, dict_get o (py "result") = None ->
                dict_get o (py "error") = Some e ->
                generate_itinerary_api (Some llm) registry request k
                = (Return (Some {| body := PDict [(py "error", e)];
                                   status := 400 |}), k')).
Proof.
  intros Hd Hq Hne Hllm Htc Hh Ho Hpre.
  rewrite (Handler.tool_branch llm registry request k k' data q m outcomes Hd Hq Hne Hllm Htc Hh).
  rewrite Ho, Handler.first_response_skip by exact Hpre.
  split.
  - intros r Hr. simpl. rewrite Hr. reflexivity.
  - intros e Hr He. simpl. rewrite Hr, He. reflexivity.
Qed.

Lemma C1_first_result_or_error_witness :
  generate_itinerary_api (Some Run.two_calls_llm)
                         (tools destination_input (Some Run.two_calls_llm))
                         Run.pokhara_request 0
  = (Return (Some {| body := PDict [(py "error",
                                     PStr (py "1 validation error for generate_itinerary"))];
                     status := 400 |}), 2).
Proof.
  eapply (proj2 (@C1_first_result_or_error cpython_defaults
                   Run.two_calls_llm
                   (tools destination_input (Some Run.two_calls_llm))
                   Run.pokhara_request 0 2
                   (PDict [(py "query", PStr (py "Plan a 3-day trip to Pokhara"))])
                   (py "Plan a 3-day trip to Pokhara")
                   Run.two_calls
                   [failure (py "generate_itinerary")
                            (Exn OtherException (py "1 validation error for generate_itinerary"));
                    success (py "generate_itinerary")
                            (PDict [(py "destination", PStr (py "Pokhara"))])
                            (PDict [(py "itinerary", PList [])])]
                   []
                   [success (py "generate_itinerary")
                            (PDict [(py "destination", PStr (py "Pokhara"))])
                            (PDict [(py "itinerary", PList [])])]
                   (failure (py "generate_itinerary")
                            (Exn OtherException (py "1 validation error for generate_itinerary")))
                   eq_refl eq_refl _ eq_refl _ _ eq_refl (Forall_nil _))).
  - vm_compute. reflexivity.
  - vm_compute. reflexivity.
  Unshelve.
  + vm_compute. discriminate.
  + vm_compute. discriminate.
  + vm_compute. reflexivity.
Defined.

(** C1, as stated, fails: the dispatch returns an error-bearing outcome
    followed by a result-bearing one, and the handler answers 400 with the
    error, not 200 with the result. *)
Lemma C1_counterexample :
  handle_tool_calls (tools destination_input (Some Run.two_calls_llm)) Run.two_calls 1
  = (Return
       [ [(py "tool", PStr (py "generate_itinerary"));
          (py "error", PStr (py "1 validation error for generate_itinerary"))];
         [(py "tool", PStr (py "generate_itinerary"));
          (py "arguments", PDict [(py "destination", PStr (py "Pokhara"))]);
          (py "result", PDict [(py "itinerary", PList [])])] ], 2)
  /\ generate_itinerary_api (Some Run.two_calls_llm)
                            (tools destination_input (Some Run.two_calls_llm))
                            Run.pokhara_request 0
     = (Return (Some {| body := PDict [(py "error",
                                        PStr (py "1 validation error for generate_itinerary"))];
                        status := 400 |}), 2)
  /\ generate_itinerary_api (Some Run.two_calls_llm)
                            (tools destination_input (Some Run.two_calls_llm))
                            Run.pokhara_request 0
     <> (Return (Some {| body := PDict [(py "itinerary",
                                         PDict [(py "itinerary", PList [])])];
                         status := 200 |}), 2).
Proof.
  split; [vm_compute; reflexivity|].
  split; [vm_compute; reflexivity|vm_compute; discriminate].
Qed.

(** C2, as the code has it.  In a turn of the loop the argument text is
    parsed before the name is looked up.  A text that [json.loads] refuses
    with a [JSONDecodeError] is recorded as
    [{"tool": name, "status": "invalid_json"}] whether or not the name is
    registered; when [json.loads] raises another exception the outcome is
    [{"tool": name, "error": str(e)}]; a name that no tool of the registry
    bears is recorded as [{"tool": name, "status": "not_found"}] only when
    the text parses.  None of these cases calls the model. *)
Theorem C2_parse_before_lookup {I : Interp}
    (registry : list Tool) (tc : RawToolCall) (results : list dict) (k : nat) :
  (forall e,
      Json.loads (function_arguments tc) = Raise e ->
      exn_cls e = JSONDecodeError ->
      handle_tool_call (tool_map registry) tc results k
      = (Return (results ++ [[(py "tool", PStr (function_name tc));
                              (py "status", PStr (py "invalid_json"))]]), k))
  /\ (forall e,
         Json.loads (function_arguments tc) = Raise e ->
         exn_cls e <> JSONDecodeError ->
         handle_tool_call (tool_map registry) tc results k
         = (Return (results ++ [[(py "tool", PStr (function_name tc));
                                 (py "error", PStr (exn_str e))]]), k))
  /\ (forall args,
         Json.loads (function_arguments tc) = Return args ->
         (forall t, In t registry -> name t <> function_name tc) ->
         handle_tool_call (tool_map registry) tc results k
         = (Return (results ++ [[(py "tool", PStr (function_name tc));
                                 (py "status", PStr (py "not_found"))]]), k)).
Proof.
  split; [|split].
  - intros e Hl Hc. unfold handle_tool_call, try_except, bind, lift, ret.
    rewrite Hl. unfold is_JSONDecodeError. rewrite Hc. reflexivity.
  - intros e Hl Hc. unfold handle_tool_call, try_except, bind, lift, ret.
    rewrite Hl. unfold is_JSONDecodeError.
    destruct (exn_cls e); try reflexivity. congruence.
  - intros args Hl Hn. apply Registry.tool_map_none in Hn.
    unfold handle_tool_call, try_except, bind, lift, ret.
    rewrite Hl, Hn. reflexivity.
Qed.

Lemma C2_parse_before_lookup_witness :
  handle_tool_call (tool_map (tools destination_input None)) Run.unknown_call [] 0
  = (Return [[(py "tool", PStr (py "book_flight"));
              (py "status", PStr (py "invalid_json"))]], 0)
  /\ handle_tool_call (tool_map (tools destination_input None))
                      Cases.long_integer_call [] 0
     = (Return [[(py "tool", PStr (py "book_flight"));
                 (py "error",
                  PStr (py "Exceeds the limit (4300 digits) for integer string conversion: value has 4301 digits; use sys.set_int_max_str_digits() to increase the limit"))]],
        0)
  /\ handle_tool_call (tool_map (tools destination_input None)) Run.unknown_call_json [] 0
     = (Return [[(py "tool", PStr (py "book_flight"));
                 (py "status", PStr (py "not_found"))]], 0).
Proof.
  split; [|split].
  - eapply (proj1 (C2_parse_before_lookup (tools destination_input None)
                     Run.unknown_call [] 0)).
    + vm_compute. reflexivity.
    + reflexivity.
  - eapply (proj1 (proj2 (C2_parse_before_lookup (tools destination_input None)
                            Cases.long_integer_call [] 0))
                  (Exn ValueError (py "Exceeds the limit (4300 digits) for integer string conversion: value has 4301 digits; use sys.set_int_max_str_digits() to increase the limit"))).
    + vm_compute. reflexivity.
    + discriminate.
  - eapply (proj2 (proj2 (C2_parse_before_lookup (tools destination_input None)
                            Run.unknown_call_json [] 0))).
    + vm_compute. reflexivity.
    + intros t [<-|[]]. vm_compute. discriminate.
Defined.

(** C2, as stated, fails: the tool [book_flight] is not registered, its
    argument text is not JSON, and the outcome recorded for it is
    [invalid_json], not [not_found]. *)
Lemma C2_counterexample :
  (forall t, In t (tools destination_input None) ->
             name t <> function_name Run.unknown_call)
  /\ (exists e, Json.loads (function_arguments Run.unknown_call) = Raise e)
  /\ handle_tool_calls (tools destination_input None) Run.unknown_message 0
     = (Return [[(py "tool", PStr (py "book_flight"));
                 (py "status", PStr (py "invalid_json"))]], 0)
  /\ handle_tool_calls (tools destination_input None) Run.unknown_message 0
     <> (Return [[(py "tool", PStr (py "book_flight"));
                  (py "status", PStr (py "not_found"))]], 0).
Proof.
  split; [intros t [<-|[]]; vm_compute; discriminate|].
  split; [eexists; vm_compute; reflexivity|].
  split; [vm_compute; reflexivity|vm_compute; discriminate].
Qed.

(** C3, as the code has it.  The test for an empty answer is made on the
    raw text, before the clean-up: an answer that is empty or whitespace
    gives the empty-response error, and an answer that is not, but whose
    cleaned text is empty, goes to [json.loads] and gives the message of
    its parse error. *)
Theorem C3_empty_test_before_cleanup {I : Interp}
    (llm : Llm) (destination : str) (k : nat) (response : Response) :
  llm k (Prompt (prompt_of destination)) = Return response ->
  (strip (response_content response) = [] ->
   generate_itinerary (Some llm) destination k
   = (Return (PDict [(py "error", PStr (py "Empty response received from model."))]),
      S k))
  /\ (strip (response_content response) <> [] ->
      json_str (response_content response) = [] ->
      generate_itinerary (Some llm) destination k
      = (Return (PDict [(py "error",
                         PStr (py "Expecting value: line 1 column 1 (char 0)"))]),
         S k)).
Proof.
  intros Hllm.
  unfold generate_itinerary, try_except, bind, invoke_main_llm, call, lift, ret.
  rewrite Hllm. split.
  - intros ->. reflexivity.
  - intros Hne Hempty.
    destruct (strip (response_content response)) as [|c t]; [congruence|].
    rewrite (Itinerary.parse_of_empty _ Hempty). reflexivity.
Qed.

Lemma C3_empty_test_before_cleanup_witness :
  generate_itinerary (Some (Run.answers (py "  "))) (py "Pokhara") 0
  = (Return (PDict [(py "error", PStr (py "Empty response received from model."))]), 1)
  /\ generate_itinerary (Some (Run.answers Run.only_fences)) (py "Pokhara") 0
     = (Return (PDict [(py "error",
                        PStr (py "Expecting value: line 1 column 1 (char 0)"))]), 1).
Proof.
  split.
  - eapply (proj1 (C3_empty_test_before_cleanup
                     (Run.answers (py "  ")) (py "Pokhara") 0 _ eq_refl)).
    vm_compute. reflexivity.
  - eapply (proj2 (C3_empty_test_before_cleanup
                     (Run.answers Run.only_fences) (py "Pokhara") 0 _ eq_refl)).
    + vm_compute. discriminate.
    + vm_compute. reflexivity.
Defined.

(** C3, as stated, fails: the answer holds two fences and a line break, its
    cleaned text is empty, and the tool returns the message of the JSON
    parse error, not the empty-response error. *)
Lemma C3_counterexample :
  json_str Run.only_fences = []
  /\ sanitize_and_parse Run.only_fences
     = Raise (Exn JSONDecodeError (py "Expecting value: line 1 column 1 (char 0)"))
  /\ generate_itinerary (Some (Run.answers Run.only_fences)) (py "Pokhara") 0
     = (Return (PDict [(py "error",
                        PStr (py "Expecting value: line 1 column 1 (char 0)"))]), 1)
  /\ generate_itinerary (Some (Run.answers Run.only_fences)) (py "Pokhara") 0
     <> (Return (PDict [(py "error",
                         PStr (py "Empty response received from model."))]), 1).
Proof.
  split; [vm_compute; reflexivity|].
  split; [vm_compute; reflexivity|].
  split; [vm_compute; reflexivity|vm_compute; discriminate].
Qed.

(** C4. When the model's answer proposes tool calls and no outcome of the
    dispatch carries a result or an error (the outcomes hold a status
    only), the loop of the handler returns nothing and the handler reaches
    the end of its body: its value is [None], not a response. *)
Theorem C4_falls_through {I : Interp}
    (llm : Llm) (registry : list Tool) (request : Request) (k k' : nat)
    (data : pyval) (q : str) (m : AIMessage) (outcomes : list dict) :
  get_json request = Return data ->
  query_of data = Return q ->
  q <> [] ->
  llm k (Chat (List.map name registry)
              [SystemMessage system_prompt; HumanMessage q])
  = Return (IsAIMessage m) ->
  tool_calls m <> [] ->
  handle_tool_calls registry m (S k) = (Return outcomes, k') ->
  Forall status_only outcomes ->
  generate_itinerary_api (Some llm) registry request k = (Return None, k').
Proof.
  intros Hd Hq Hne Hllm Htc Hh Hall.
  rewrite (Handler.tool_branch llm registry request k k' data q m outcomes Hd Hq Hne Hllm Htc Hh).
  rewrite Handler.first_response_none by exact Hall. reflexivity.
Qed.

Lemma C4_falls_through_witness :
  generate_itinerary_api (Some Run.unknown_llm)
                         (tools destination_input (Some Run.unknown_llm))
                         Run.pokhara_request 0
  = (Return None, 1).
Proof.
  eapply (@C4_falls_through cpython_defaults
            Run.unknown_llm (tools destination_input (Some Run.unknown_llm))
            Run.pokhara_request 0 1
            (PDict [(py "query", PStr (py "Plan a 3-day trip to Pokhara"))])
            (py "Plan a 3-day trip to Pokhara")
            Run.unknown_message_json
            [not_found (py "book_flight")]
            eq_refl eq_refl).
  - vm_compute. discriminate.
  - vm_compute. reflexivity.
  - vm_compute. discriminate.
  - vm_compute. reflexivity.
  - constructor; [|constructor]. split; reflexivity.
Defined.

(** C5. [handle_tool_calls] returns a list and never raises, on every
    response, registry and behaviour of the tools.  When tool calls are
    proposed the list has one outcome per call, in the order of the calls:
    an argument text that [json.loads] refuses gives the outcome of that
    exception ([invalid_json] for a [JSONDecodeError]), an unregistered
    name [not_found], a tool that raises gives the outcome of its
    exception, a tool that returns gives [success]; each call is run from
    the state its predecessor left. *)
Theorem C5_dispatch_never_raises {I : Interp}
    (registry : list Tool) (response : AIMessage) (k : nat) :
  exists (outcomes : list dict) (k' : nat),
    handle_tool_calls registry response k = (Return outcomes, k')
    /\ match additional_kwargs_tool_calls response with
       | Some (tc :: tcs) =>
           recorded_all (tool_map registry) (tc :: tcs) k outcomes k'
           /\ List.length outcomes = List.length (tc :: tcs)
       | _ => outcomes = [no_tool_calls] /\ k' = k
       end.
Proof.
  unfold handle_tool_calls.
  destruct (additional_kwargs_tool_calls response) as [[|tc tcs]|].
  - exists [no_tool_calls], k. repeat split.
  - destruct (Dispatch.for_tool_calls_recorded (tool_map registry) (tc :: tcs) [] k)
      as (os & k' & H & R).
    exists os, k'. split; [exact H|]. split; [exact R|].
    eapply Dispatch.recorded_all_length; eassumption.
  - exists [no_tool_calls], k. repeat split.
Qed.



(** C7. The clean-up removes the occurrences of the fence with [json], then
    those of the bare fence, then those of the empty tool-use tag, and
    trims the whitespace at both ends; what remains is parsed by
    [json.loads] as it is.  A fenced object is parsed to its value, and a
    text that is not JSON is refused with the parser's error.  (The
    decoder runs with CPython's default limits.) *)
Theorem C7_sanitize_and_parse :
  (forall raw : str,
      exists s1 s2 s3 : str,
        removes_all (py "```json") raw s1
        /\ removes_all (py "```") s1 s2
        /\ removes_all (py "<tool-use></tool-use>") s2 s3
        /\ trimmed s3 (json_str raw)
        /\ sanitize_and_parse raw = Json.loads (json_str raw))
  /\ sanitize_and_parse (py "```json" ++ [10%N] ++ jq "{'a':1}" ++ [10%N] ++ py "```")
     = Return (PDict [(py "a", PInt 1)])
  /\ sanitize_and_parse (py "{not valid json")
     = Raise (Exn JSONDecodeError
                  (py "Expecting property name enclosed in double quotes: line 1 column 2 (char 1)")).
Proof.
  split; [|split; vm_compute; reflexivity].
  intros raw.
  exists (replace raw (py "```json") []),
         (replace (replace raw (py "```json") []) (py "```") []),
         (replace (replace (replace raw (py "```json") []) (py "```") [])
                  (py "<tool-use></tool-use>") []).
  split; [apply StrFacts.replace_removes_all|].
  split; [apply StrFacts.replace_removes_all|].
  split; [apply StrFacts.replace_removes_all|].
  split; [apply StrFacts.strip_trimmed|reflexivity].
Qed.

(** C8. A response without tool calls under [additional_kwargs] (the key is
    missing, or its list is empty) is answered by the one-element list
    [[{"status": "no_tool_calls"}]], whatever the registry, and without a
    call to the model. *)
Theorem C8_no_tool_calls {I : Interp}
    (registry : list Tool) (response : AIMessage) (k : nat) :
  additional_kwargs_tool_calls response = None
  \/ additional_kwargs_tool_calls response = Some [] ->
  handle_tool_calls registry response k
  = (Return [[(py "status", PStr (py "no_tool_calls"))]], k).
Proof.
  unfold handle_tool_calls. intros [H|H]; rewrite H; reflexivity.
Qed.

Lemma C8_no_tool_calls_witness :
  handle_tool_calls (tools destination_input None)
                    {| content := py "Namaste!"; tool_calls := [];
                       additional_kwargs_tool_calls := None |} 0
  = (Return [[(py "status", PStr (py "no_tool_calls"))]], 0).
Proof.
  apply C8_no_tool_calls. left. reflexivity.
Defined.

(** C9. With the credential missing, empty or left at its placeholder, the
    start-up leaves [main_llm] unset, and the handler answers every request
    with 503 and the fixed message, before it reads the request and
    without a call to the model. *)
Theorem C9_unconfigured_503 {I : Interp}
    (getenv : option str) (ChatGroq : str -> Exc Llm)
    (registry : list Tool) (request : Request) (k : nat) :
  unconfigured getenv ->
  generate_itinerary_api (init_main_llm getenv ChatGroq) registry request k
  = (Return (Some {| body := PDict [(py "error",
       PStr (py "Service temporarily unavailable. Please configure GROQ_API_KEY environment variable."))];
                     status := 503 |}), k).
Proof.
  intros [->|[->| ->]]; reflexivity.
Qed.

Lemma C9_unconfigured_503_witness :
  generate_itinerary_api
    (init_main_llm (Some (py "your_groq_api_key_here")) (fun _ => Return Run.unknown_llm))
    (tools destination_input None)
    {| get_json := Raise (Exn OtherException (py "400 Bad Request")) |} 0
  = (Return (Some {| body := PDict [(py "error",
       PStr (py "Service temporarily unavailable. Please configure GROQ_API_KEY environment variable."))];
                     status := 503 |}), 0).
Proof.
  apply C9_unconfigured_503. right. right. reflexivity.
Defined.

(** C10. The clean-up changes a text that is JSON already: the document
    [{"a":"```"}] parses to an object whose text is the fence, and after
    the clean-up to an object whose text is empty.  (The decoder runs with
    CPython's default limits.) *)
Theorem C10_sanitize_changes_valid_json :
  exists (raw : str) (direct cleaned : pyval),
    Json.loads raw = Return direct
    /\ sanitize_and_parse raw = Return cleaned
    /\ direct <> cleaned.
Proof.
  exists Run.fence_inside,
         (PDict [(py "a", PStr (py "```"))]),
         (PDict [(py "a", PStr [])]).
  split; [vm_compute; reflexivity|].
  split; [vm_compute; reflexivity|vm_compute; discriminate].
Qed.

(** ** Further properties of the handler *)

Module HandlerFacts.

Section Facts.
Context {I : Interp}.

(** The loop answers with 200 or 400. *)
Lemma first_response_status (outcomes : list dict) (resp : HttpResponse) :
  first_response outcomes = Some resp -> status resp = 200 \/ status resp = 400.
Proof.
  induction outcomes as [|o outcomes IH]; simpl; [discriminate|].
  destruct (dict_get o (py "result")).
  - intros E. inversion E. left. reflexivity.
  - destruct (dict_get o (py "error")).
    + intros E. inversion E. right. reflexivity.
    + exact IH.
Qed.

(** The loop returns nothing only when every outcome holds a status only. *)
Lemma first_response_none_inv (outcomes : list dict) :
  first_response outcomes = None -> Forall status_only outcomes.
Proof.
  induction outcomes as [|o outcomes IH]; simpl; [constructor|].
  destruct (dict_get o (py "result")) eqn:Hr; [discriminate|].
  destruct (dict_get o (py "error")) eqn:He; [discriminate|].
  intros H. constructor; [split; assumption|apply IH; exact H].
Qed.

Lemma strip_nil : strip [] = [].
Proof. reflexivity. Qed.

End Facts.

End HandlerFacts.

Ltac handler_unfold :=
  unfold generate_itinerary_api, try_except, bind, lift, call, ret.

(** X1. With the model configured, a request whose JSON object has no
    ["query"], or a query that is empty or whitespace, is answered with
    400 and [{"error": "No query provided"}]; the model is not called. *)
Theorem X1_no_query {I : Interp}
    (llm : Llm) (registry : list Tool) (request : Request) (d : dict) (k : nat) :
  get_json request = Return (PDict d) ->
  (dict_get d (py "query") = None
   \/ exists q, dict_get d (py "query") = Some (PStr q) /\ strip q = []) ->
  generate_itinerary_api (Some llm) registry request k
  = (Return (Some {| body := PDict [(py "error", PStr (py "No query provided"))];
                     status := 400 |}), k).
Proof.
  intros Hd Hq. handler_unfold. rewrite Hd. unfold query_of.
  destruct Hq as [Hq|(q & Hq & Hs)]; rewrite Hq.
  - reflexivity.
  - rewrite Hs. reflexivity.
Qed.

Lemma X1_no_query_witness :
  generate_itinerary_api (Some Run.two_calls_llm)
                         (tools destination_input (Some Run.two_calls_llm))
                         Cases.blank_request 0
  = (Return (Some {| body := PDict [(py "error", PStr (py "No query provided"))];
                     status := 400 |}), 0).
Proof.
  eapply (X1_no_query Run.two_calls_llm _ Cases.blank_request
                      [(py "query", PStr (py "   "))] 0 eq_refl).
  right. exists (py "   "). split; reflexivity.
Defined.



(** X3. When a call made by the handler raises (reading the request, or
    invoking the model), the handler answers 500 and echoes [str(e)]: after
    ["System error: "] for a [LangChainException], after
    ["Unexpected error: "] for any other exception. *)
Theorem X3_exceptions_become_500 {I : Interp}
    (llm : Llm) (registry : list Tool) (request : Request) (k : nat) (e : exn) :
  (get_json request = Raise e ->
   generate_itinerary_api (Some llm) registry request k
   = (Return (Some {| body := PDict [(py "error", PStr (caught_message e))];
                      status := 500 |}), k))
  /\ (forall data q,
         get_json request = Return data ->
         query_of data = Return q ->
         q <> [] ->
         llm k (Chat (List.map name registry)
                     [SystemMessage system_prompt; HumanMessage q])
         = Raise e ->
         generate_itinerary_api (Some llm) registry request k
         = (Return (Some {| body := PDict [(py "error", PStr (caught_message e))];
                            status := 500 |}), S k)).
Proof.
  split.
  - intros Hd. handler_unfold. rewrite Hd. unfold caught_message.
    destruct (is_LangChainException e); reflexivity.
  - intros data q Hd Hq Hne Hllm. handler_unfold.
    rewrite Hd, Hq. destruct q as [|c q]; [congruence|].
    rewrite Hllm. unfold caught_message.
    destruct (is_LangChainException e); reflexivity.
Qed.

Lemma X3_exceptions_become_500_witness :
  generate_itinerary_api (Some Cases.failing_llm) (tools destination_input None)
                         Cases.unreadable_request 0
  = (Return (Some {| body := PDict [(py "error",
                                     PStr (py "Unexpected error: 400 Bad Request"))];
                     status := 500 |}), 0)
  /\ generate_itinerary_api (Some Cases.failing_llm) (tools destination_input None)
                            Run.pokhara_request 0
     = (Return (Some {| body := PDict [(py "error",
                                        PStr (py "System error: rate limit reached"))];
                        status := 500 |}), 1).
Proof.
  split.
  - exact (proj1 (X3_exceptions_become_500
                    Cases.failing_llm (tools destination_input None)
                    Cases.unreadable_request 0
                    (Exn OtherException (py "400 Bad Request"))) eq_refl).
  - eapply (proj2 (X3_exceptions_become_500
                     Cases.failing_llm (tools destination_input None)
                     Run.pokhara_request 0
                     (Exn LangChainException (py "rate limit reached")))
                  (PDict [(py "query", PStr (py "Plan a 3-day trip to Pokhara"))])
                  (py "Plan a 3-day trip to Pokhara") eq_refl eq_refl).
    + vm_compute. discriminate.
    + reflexivity.
Defined.

(** X4. A request body that is JSON but not an object, or whose ["query"]
    is not a string, is answered with 500 and the message of the
    [AttributeError] that [data.get] or [.strip()] raises; the model is
    not called. *)
Theorem X4_malformed_body {I : Interp}
    (llm : Llm) (registry : list Tool) (request : Request) (k : nat) (data : pyval) :
  get_json request = Return data ->
  ((forall d, data <> PDict d) ->
   generate_itinerary_api (Some llm) registry request k
   = (Return (Some {| body := PDict [(py "error",
        PStr (py "Unexpected error: '" ++ type_name data
              ++ py "' object has no attribute 'get'"))];
                      status := 500 |}), k))
  /\ (forall d v,
         data = PDict d ->
         dict_get d (py "query") = Some v ->
         (forall q, v <> PStr q) ->
         generate_itinerary_api (Some llm) registry request k
         = (Return (Some {| body := PDict [(py "error",
              PStr (py "Unexpected error: '" ++ type_name v
                    ++ py "' object has no attribute 'strip'"))];
                            status := 500 |}), k)).
Proof.
  intros Hd. split.
  - intros Hnd. handler_unfold. rewrite Hd.
    destruct data; try reflexivity. exfalso. eapply Hnd. reflexivity.
  - intros d v -> Hq Hv. handler_unfold. rewrite Hd. unfold query_of.
    rewrite Hq. destruct v; try reflexivity. exfalso. eapply Hv. reflexivity.
Qed.

Lemma X4_malformed_body_witness :
  generate_itinerary_api (Some Cases.failing_llm) (tools destination_input None)
                         Cases.list_request 0
  = (Return (Some {| body := PDict [(py "error",
       PStr (py "Unexpected error: 'list' object has no attribute 'get'"))];
                     status := 500 |}), 0)
  /\ generate_itinerary_api (Some Cases.failing_llm) (tools destination_input None)
                            Cases.number_request 0
     = (Return (Some {| body := PDict [(py "error",
          PStr (py "Unexpected error: 'int' object has no attribute 'strip'"))];
                        status := 500 |}), 0).
Proof.
  split.
  - eapply (proj1 (X4_malformed_body Cases.failing_llm (tools destination_input None)
                     Cases.list_request 0 (PList []) eq_refl)).
    intros d. discriminate.
  - eapply (proj2 (X4_malformed_body Cases.failing_llm (tools destination_input None)
                     Cases.number_request 0 _ eq_refl)
                  [(py "query", PInt 5)] (PInt 5) eq_refl eq_refl).
    intros q. discriminate.
Defined.

(** X5. The handler never raises, on any request, registry and behaviour
    of the model and of the tools: it returns a response whose status is
    200, 400, 500 or 503, or it returns [None]. *)
Theorem X5_handler_never_raises {I : Interp}
    (main_llm : option Llm) (registry : list Tool) (request : Request) (k : nat) :
  exists (r : option HttpResponse) (k' : nat),
    generate_itinerary_api main_llm registry request k = (Return r, k')
    /\ match r with
       | Some resp => In (status resp) [200; 400; 500; 503]
       | None => True
       end.
Proof.
  handler_unfold.
  destruct main_llm as [llm|]; [|eexists _, _; split; [reflexivity|simpl; auto]].
  destruct (get_json request) as [data|e];
    [|destruct (is_LangChainException e); eexists _, _;
      (split; [reflexivity|simpl; auto])].
  destruct (query_of data) as [[|c q]|e];
    [eexists _, _; split; [reflexivity|simpl; auto]| |
     destruct (is_LangChainException e); eexists _, _;
     (split; [reflexivity|simpl; auto])].
  destruct (llm k _) as [[m|t]|e];
    [|eexists _, _; split; [reflexivity|simpl; auto]|
     destruct (is_LangChainException e); eexists _, _;
     (split; [reflexivity|simpl; auto])].
  destruct (tool_calls m) as [|tc tcs];
    [eexists _, _; split; [reflexivity|simpl; auto]|].
  destruct (handle_tool_calls registry m (S k)) as [[outcomes|e] k'];
    [|destruct (is_LangChainException e); eexists _, _;
      (split; [reflexivity|simpl; auto])].
  eexists _, _. split; [reflexivity|].
  destruct (first_response outcomes) as [resp|] eqn:E; [|exact Logic.I].
  apply HandlerFacts.first_response_status in E. simpl. destruct E as [-> | ->]; auto.
Qed.

(** X6. A response of the handler has status 503 exactly when [main_llm]
    is unset: a configured service never answers 503. *)
Theorem X6_503_only_when_unset {I : Interp}
    (main_llm : option Llm) (registry : list Tool) (request : Request)
    (k k' : nat) (resp : HttpResponse) :
  generate_itinerary_api main_llm registry request k = (Return (Some resp), k') ->
  (status resp = 503 <-> main_llm = None).
Proof.
  handler_unfold.
  destruct main_llm as [llm|];
    [|intros E; inversion E; subst; simpl; tauto].
  intros E.
  assert (Hs : status resp <> 503).
  { destruct (get_json request) as [data|e];
      [|destruct (is_LangChainException e); inversion E; subst; simpl; lia].
    destruct (query_of data) as [[|c q]|e];
      [inversion E; subst; simpl; lia| |
       destruct (is_LangChainException e); inversion E; subst; simpl; lia].
    destruct (llm k _) as [[m|t]|e];
      [|inversion E; subst; simpl; lia|
       destruct (is_LangChainException e); inversion E; subst; simpl; lia].
    destruct (tool_calls m) as [|tc tcs]; [inversion E; subst; simpl; lia|].
    destruct (handle_tool_calls registry m (S k)) as [[outcomes|e] k1];
      [|destruct (is_LangChainException e); inversion E; subst; simpl; lia].
    inversion E as [[E1 E2]].
    apply HandlerFacts.first_response_status in E1. lia. }
  split; [intros H; contradiction|discriminate].
Qed.

Lemma X6_503_only_when_unset_witness :
  status {| body := PDict [(py "response", PStr (py "Namaste!"))]; status := 200 |} = 503
  <-> Some (Run.answers (py "Namaste!")) = None.
Proof.
  eapply (X6_503_only_when_unset
            (Some (Run.answers (py "Namaste!")))
            (tools destination_input (Some (Run.answers (py "Namaste!"))))
            Run.pokhara_request 0 1).
  vm_compute. reflexivity.
Defined.

(** X7. The handler returns [None] in one case only: the model is
    configured, the query is not empty, the model's answer is an
    [AIMessage] with tool calls, and no outcome of the dispatch carries a
    result or an error.  In every other case it returns a response. *)
Theorem X7_none_only_by_fall_through {I : Interp}
    (main_llm : option Llm) (registry : list Tool) (request : Request) (k k' : nat) :
  generate_itinerary_api main_llm registry request k = (Return None, k') ->
  exists (llm : Llm) (data : pyval) (q : str) (m : AIMessage) (outcomes : list dict),
    main_llm = Some llm
    /\ get_json request = Return data
    /\ query_of data = Return q
    /\ q <> []
    /\ llm k (Chat (List.map name registry)
                   [SystemMessage system_prompt; HumanMessage q])
       = Return (IsAIMessage m)
    /\ tool_calls m <> []
    /\ handle_tool_calls registry m (S k) = (Return outcomes, k')
    /\ Forall status_only outcomes.
Proof.
  handler_unfold.
  destruct main_llm as [llm|]; [|discriminate].
  destruct (get_json request) as [data|e] eqn:Hd;
    [|destruct (is_LangChainException e); discriminate].
  destruct (query_of data) as [[|c q]|e] eqn:Hq;
    [discriminate| |destruct (is_LangChainException e); discriminate].
  destruct (llm k _) as [[m|t]|e] eqn:Hllm;
    [|discriminate|destruct (is_LangChainException e); discriminate].
  destruct (tool_calls m) as [|tc tcs] eqn:Htc; [discriminate|].
  destruct (handle_tool_calls registry m (S k)) as [[outcomes|e] k1] eqn:Hh;
    [|destruct (is_LangChainException e); discriminate].
  intros E. inversion E as [[E1 E2]]. subst k1.
  exists llm, data, (c :: q), m, outcomes.
  repeat split; try reflexivity; try discriminate; try assumption.
  - rewrite Htc. discriminate.
  - apply HandlerFacts.first_response_none_inv. exact E1.
Qed.

Lemma X7_none_only_by_fall_through_witness :
  exists (llm : Llm) (data : pyval) (q : str) (m : AIMessage) (outcomes : list dict),
    Some Run.unknown_llm = Some llm
    /\ get_json Run.pokhara_request = Return data
    /\ query_of data = Return q
    /\ q <> []
    /\ llm 0 (Chat (List.map name (tools destination_input (Some Run.unknown_llm)))
                   [SystemMessage system_prompt; HumanMessage q])
       = Return (IsAIMessage m)
    /\ tool_calls m <> []
    /\ handle_tool_calls (tools destination_input (Some Run.unknown_llm)) m 1
       = (Return outcomes, 1)
    /\ Forall status_only outcomes.
Proof.
  apply (X7_none_only_by_fall_through
           (Some Run.unknown_llm) (tools destination_input (Some Run.unknown_llm))
           Run.pokhara_request 0 1).
  vm_compute. reflexivity.
Defined.

(** ** Further properties of the dispatch *)

Module DispatchFacts.

Section Facts.
Context {I : Interp}.

Lemma recorded_payloads (tm : dict_of Tool) (tc : RawToolCall) (k k' : nat) (o : dict) :
  recorded tm tc k o k' -> payloads o = 1.
Proof.
  intros H. destruct H; try reflexivity;
    destruct (is_JSONDecodeError e); reflexivity.
Qed.

Lemma recorded_all_shape (tm : dict_of Tool) (tcs : list RawToolCall)
      (k k' : nat) (os : list dict) :
  recorded_all tm tcs k os k' ->
  Forall (fun o => payloads o = 1) os
  /\ List.map (fun o => dict_get o (py "tool")) os
     = List.map (fun tc => Some (PStr (function_name tc))) tcs.
Proof.
  induction 1 as [|tc tcs k k1 k2 o os Hr Hall [IH1 IH2]]; simpl.
  - split; [constructor|reflexivity].
  - split.
    + constructor; [eapply recorded_payloads; eassumption|exact IH1].
    + rewrite IH2. erewrite Dispatch.recorded_tool by eassumption. reflexivity.
Qed.

(** The outcome of a turn does not depend on the results so far. *)
Lemma handle_tool_call_from_nil
    (tm : dict_of Tool) (tc : RawToolCall) (results : list dict) (k k' : nat) (o : dict) :
  handle_tool_call tm tc [] k = (Return [o], k') ->
  handle_tool_call tm tc results k = (Return (results ++ [o]), k').
Proof.
  unfold handle_tool_call, try_except, bind, lift, ret.
  destruct (Json.loads (function_arguments tc)) as [args|e].
  - destruct (dict_get tm (function_name tc)) as [t|].
    + destruct (invoke t args k) as [[r|e] k1].
      * intros E. inversion E. reflexivity.
      * destruct (is_JSONDecodeError e); intros E; inversion E; reflexivity.
    + intros E. inversion E. reflexivity.
  - destruct (is_JSONDecodeError e); intros E; inversion E; reflexivity.
Qed.

Lemma for_tool_calls_from_nil (tm : dict_of Tool) (tcs : list RawToolCall) :
  forall (results : list dict) (k k' : nat) (os : list dict),
    for_tool_calls tm tcs [] k = (Return os, k') ->
    for_tool_calls tm tcs results k = (Return (results ++ os), k').
Proof.
  induction tcs as [|tc tcs IH]; intros results k k' os.
  - simpl. unfold ret. intros E. inversion E. rewrite app_nil_r. reflexivity.
  - destruct (Dispatch.handle_tool_call_recorded tm tc [] k) as (o & k1 & H1 & _).
    simpl in H1.
    destruct (Dispatch.for_tool_calls_recorded tm tcs [] k1) as (os1 & k2 & H2 & _).
    simpl in H2.
    cbn [for_tool_calls]. unfold bind.
    rewrite H1, (handle_tool_call_from_nil tm tc results k k1 o H1).
    rewrite (IH [o] k1 k2 os1 H2), (IH (results ++ [o]) k1 k2 os1 H2).
    intros E. inversion E. subst. rewrite <- app_assoc. reflexivity.
Qed.

Lemma for_tool_calls_app (tm : dict_of Tool) (a b : list RawToolCall) :
  forall (results : list dict) (k : nat),
    for_tool_calls tm (a ++ b) results k
    = bind (for_tool_calls tm a results) (for_tool_calls tm b) k.
Proof.
  induction a as [|tc a IH]; intros results k.
  - reflexivity.
  - cbn [app for_tool_calls]. unfold bind.
    destruct (handle_tool_call tm tc results k) as [[r|e] k1]; [|reflexivity].
    rewrite IH. reflexivity.
Qed.

End Facts.

End DispatchFacts.

(** X8. Every outcome that [handle_tool_calls] returns holds exactly one of
    the keys ["result"], ["error"] and ["status"]; and when tool calls are
    proposed, the ["tool"] entries of the outcomes are the names of the
    calls, in the order of the calls. *)
Theorem X8_outcome_shape {I : Interp}
    (registry : list Tool) (response : AIMessage) (k k' : nat) (outcomes : list dict) :
  handle_tool_calls registry response k = (Return outcomes, k') ->
  Forall (fun o => payloads o = 1) outcomes
  /\ (raw_tool_calls response <> [] ->
      List.map (fun o => dict_get o (py "tool")) outcomes
      = List.map (fun tc => Some (PStr (function_name tc))) (raw_tool_calls response)).
Proof.
  unfold handle_tool_calls, raw_tool_calls.
  destruct (additional_kwargs_tool_calls response) as [[|tc tcs]|].
  - intros E. inversion E. split; [repeat constructor|congruence].
  - intros E.
    destruct (Dispatch.for_tool_calls_recorded (tool_map registry) (tc :: tcs) [] k)
      as (os & k1 & H & R).
    rewrite H in E. inversion E. subst.
    destruct (DispatchFacts.recorded_all_shape _ _ _ _ _ R) as [H1 H2].
    split; [exact H1|]. intros _. exact H2.
  - intros E. inversion E. split; [repeat constructor|congruence].
Qed.

Lemma X8_outcome_shape_witness :
  Forall (fun o => payloads o = 1)
         [failure (py "generate_itinerary")
                  (Exn OtherException (py "1 validation error for generate_itinerary"));
          success (py "generate_itinerary")
                  (PDict [(py "destination", PStr (py "Pokhara"))])
                  (PDict [(py "itinerary", PList [])])]
  /\ (raw_tool_calls Run.two_calls <> [] ->
      List.map (fun o => dict_get o (py "tool"))
               [failure (py "generate_itinerary")
                        (Exn OtherException (py "1 validation error for generate_itinerary"));
                success (py "generate_itinerary")
                        (PDict [(py "destination", PStr (py "Pokhara"))])
                        (PDict [(py "itinerary", PList [])])]
      = List.map (fun tc => Some (PStr (function_name tc))) (raw_tool_calls Run.two_calls)).
Proof.
  apply (X8_outcome_shape (tools destination_input (Some Run.two_calls_llm))
                          Run.two_calls 1 2).
  vm_compute. reflexivity.
Defined.

(** X9. A batch is dispatched call after call: the outcomes of the calls
    [a ++ b] are the outcomes of [a] followed by those of [b] run from the
    state that [a] left.  An earlier outcome does not depend on the calls
    that follow it. *)
Theorem X9_batches_compose {I : Interp}
    (registry : list Tool) (ma mb mab : AIMessage) (a b : list RawToolCall)
    (k k1 k2 : nat) (oa ob : list dict) :
  a <> [] -> b <> [] ->
  additional_kwargs_tool_calls ma = Some a ->
  additional_kwargs_tool_calls mb = Some b ->
  additional_kwargs_tool_calls mab = Some (a ++ b) ->
  handle_tool_calls registry ma k = (Return oa, k1) ->
  handle_tool_calls registry mb k1 = (Return ob, k2) ->
  handle_tool_calls registry mab k = (Return (oa ++ ob), k2).
Proof.
  intros Ha Hb Hma Hmb Hmab. unfold handle_tool_calls.
  rewrite Hma, Hmb, Hmab.
  destruct a as [|ta a]; [congruence|]. destruct b as [|tb b]; [congruence|].
  intros H1 H2.
  change (for_tool_calls (tool_map registry) ((ta :: a) ++ tb :: b) [] k
          = (Return (oa ++ ob), k2)).
  rewrite DispatchFacts.for_tool_calls_app. unfold bind. rewrite H1.
  exact (DispatchFacts.for_tool_calls_from_nil (tool_map registry) (tb :: b) oa k1 k2 ob H2).
Qed.

Lemma X9_batches_compose_witness :
  handle_tool_calls (tools destination_input (Some Run.two_calls_llm)) Run.two_calls 1
  = (Return
       ([failure (py "generate_itinerary")
                 (Exn OtherException (py "1 validation error for generate_itinerary"))]
        ++ [success (py "generate_itinerary")
                    (PDict [(py "destination", PStr (py "Pokhara"))])
                    (PDict [(py "itinerary", PList [])])]), 2).
Proof.
  eapply (X9_batches_compose
            (tools destination_input (Some Run.two_calls_llm))
            {| content := []; tool_calls := [];
               additional_kwargs_tool_calls := Some [Run.itinerary_call (py "{}")] |}
            Cases.one_call Run.two_calls
            [Run.itinerary_call (py "{}")]
            [Run.itinerary_call (jq "{'destination': 'Pokhara'}")]
            1 1 2).
  - discriminate.
  - discriminate.
  - reflexivity.
  - reflexivity.
  - reflexivity.
  - vm_compute. reflexivity.
  - vm_compute. reflexivity.
Defined.

(** X10. The [except json.JSONDecodeError] clause spans the whole [try]: a
    registered tool that itself raises a [JSONDecodeError] is recorded as
    [{"tool": name, "status": "invalid_json"}], like an argument text that
    is not JSON; a tool that raises any other exception is recorded as
    [{"tool": name, "error": str(e)}].  The loop goes on from the state the
    tool left. *)
Theorem X10_tool_exceptions {I : Interp}
    (registry : list Tool) (tc : RawToolCall) (results : list dict)
    (k k' : nat) (args : pyval) (t : Tool) (e : exn) :
  Json.loads (function_arguments tc) = Return args ->
  dict_get (tool_map registry) (function_name tc) = Some t ->
  invoke t args k = (Raise e, k') ->
  (exn_cls e = JSONDecodeError ->
   handle_tool_call (tool_map registry) tc results k
   = (Return (results ++ [[(py "tool", PStr (function_name tc));
                           (py "status", PStr (py "invalid_json"))]]), k'))
  /\ (exn_cls e <> JSONDecodeError ->
      handle_tool_call (tool_map registry) tc results k
      = (Return (results ++ [[(py "tool", PStr (function_name tc));
                              (py "error", PStr (exn_str e))]]), k')).
Proof.
  intros Hl Ht Hi.
  unfold handle_tool_call, try_except, bind, lift, ret.
  rewrite Hl, Ht, Hi. unfold is_JSONDecodeError. split.
  - intros ->. reflexivity.
  - intros Hc. destruct (exn_cls e); try reflexivity. congruence.
Qed.

Lemma X10_tool_exceptions_witness :
  handle_tool_call (tool_map [Cases.decoding_tool]) Cases.lookup_call [] 0
  = (Return [[(py "tool", PStr (py "lookup"));
              (py "status", PStr (py "invalid_json"))]], 0)
  /\ handle_tool_call (tool_map [Cases.broken_tool]) Cases.lookup_call [] 0
     = (Return [[(py "tool", PStr (py "lookup"));
                 (py "error", PStr (py "connection reset"))]], 0).
Proof.
  split.
  - eapply (proj1 (X10_tool_exceptions [Cases.decoding_tool] Cases.lookup_call [] 0 0
                     (PDict []) Cases.decoding_tool
                     (Exn JSONDecodeError (py "Expecting value: line 1 column 1 (char 0)"))
                     _ _ _)).
    reflexivity.
  - eapply (proj2 (X10_tool_exceptions [Cases.broken_tool] Cases.lookup_call [] 0 0
                     (PDict []) Cases.broken_tool
                     (Exn OtherException (py "connection reset"))
                     _ _ _)).
    discriminate.
  Unshelve.
  all: vm_compute; reflexivity.
Defined.

(** ** Further properties of the registry *)

Module RegistryFacts.

Section Facts.
Context {I : Interp}.

Lemma find_last {A : Type} (p : A -> bool) (l : list A) (x : A) :
  find p (l ++ [x])
  = match find p l with
    | Some y => Some y
    | None => if p x then Some x else None
    end.
Proof.
  induction l as [|y l IH]; simpl; [reflexivity|].
  destruct (p y); [reflexivity|exact IH].
Qed.

Lemma fold_set_get (registry : list Tool) (n : str) :
  forall m : dict_of Tool,
    dict_get (fold_left (fun m t => dict_set m (name t) t) registry m) n
    = match find (fun t => str_eqb (name t) n) (rev registry) with
      | Some t => Some t
      | None => dict_get m n
      end.
Proof.
  induction registry as [|t registry IH]; intros m; simpl; [reflexivity|].
  rewrite IH, find_last, Registry.dict_get_set.
  destruct (find (fun t0 => str_eqb (name t0) n) (rev registry)); [reflexivity|].
  destruct (str_eqb (name t) n); reflexivity.
Qed.

(** The map built from the registry of the file. *)
Lemma file_tool_map (parse_input : pyval -> Exc str) (main_llm : option Llm) (n : str) :
  dict_get (tool_map (tools parse_input main_llm)) n
  = if str_eqb (py "generate_itinerary") n
    then Some (generate_itinerary_tool parse_input main_llm)
    else None.
Proof. reflexivity. Qed.

End Facts.

End RegistryFacts.

(** X11. [tool_map] sends a name to the last tool of the registry that
    bears it (a later tool replaces an earlier one of the same name), and
    to nothing when no tool bears it. *)
Theorem X11_tool_map_last_wins (registry : list Tool) (n : str) :
  dict_get (tool_map registry) n
  = find (fun t => str_eqb (name t) n) (rev registry).
Proof.
  unfold tool_map. rewrite RegistryFacts.fold_set_get.
  destruct (find (fun t => str_eqb (name t) n) (rev registry)); reflexivity.
Qed.

(** ** Further properties of the registry of the file *)

Module ToolFacts.

Section Facts.
Context {I : Interp}.

(** [generate_itinerary] calls the model once, or not at all when the
    model is unset. *)
Lemma generate_itinerary_calls
    (main_llm : option Llm) (destination : str) (k k' : nat) (r : Exc pyval) :
  generate_itinerary main_llm destination k = (r, k') ->
  k <= k' <= S k.
Proof.
  unfold generate_itinerary, try_except, bind, invoke_main_llm, raise, call, lift, ret.
  destruct main_llm as [llm|].
  - destruct (llm k (Prompt (prompt_of destination))) as [response|e].
    + destruct (strip (response_content response)).
      * intros E. inversion E. lia.
      * destruct (sanitize_and_parse (response_content response));
          intros E; inversion E; lia.
    + intros E. inversion E. lia.
  - intros E. inversion E. lia.
Qed.

Lemma handle_tool_call_calls
    (parse_input : pyval -> Exc str) (main_llm : option Llm)
    (tc : RawToolCall) (results : list dict) (k k' : nat) (r : Exc (list dict)) :
  handle_tool_call (tool_map (tools parse_input main_llm)) tc results k = (r, k') ->
  k <= k' <= S k.
Proof.
  unfold handle_tool_call, try_except, bind, lift, ret.
  destruct (Json.loads (function_arguments tc)) as [args|e].
  - rewrite RegistryFacts.file_tool_map.
    destruct (str_eqb (py "generate_itinerary") (function_name tc)).
    + cbn [invoke generate_itinerary_tool]. unfold bind, lift.
      destruct (parse_input args) as [d|e].
      * destruct (generate_itinerary main_llm d k) as [[v|e] k1] eqn:Hg;
          apply generate_itinerary_calls in Hg.
        -- intros E. inversion E. lia.
        -- destruct (is_JSONDecodeError e); intros E; inversion E; lia.
      * destruct (is_JSONDecodeError e); intros E; inversion E; lia.
    + intros E. inversion E. lia.
  - destruct (is_JSONDecodeError e); intros E; inversion E; lia.
Qed.

Lemma for_tool_calls_calls
    (parse_input : pyval -> Exc str) (main_llm : option Llm) (tcs : list RawToolCall) :
  forall (results : list dict) (k k' : nat) (r : Exc (list dict)),
    for_tool_calls (tool_map (tools parse_input main_llm)) tcs results k = (r, k') ->
    k <= k' <= k + List.length tcs.
Proof.
  induction tcs as [|tc tcs IH]; intros results k k' r.
  - simpl. unfold ret. intros E. inversion E. lia.
  - cbn [for_tool_calls]. unfold bind.
    destruct (handle_tool_call (tool_map (tools parse_input main_llm)) tc results k)
      as [[rs|e] k1] eqn:H1; apply handle_tool_call_calls in H1.
    + intros H2. apply IH in H2. simpl. lia.
    + intros E. inversion E. simpl. lia.
Qed.

Lemma success_result (f : str) (args v : pyval) :
  dict_get (success f args v) (py "result") = Some v.
Proof. reflexivity. Qed.

End Facts.

End ToolFacts.

(** X12. With the registry of the file, a failure inside
    [generate_itinerary] reaches the client with status 200: when the
    first tool call names [generate_itinerary] and its arguments are JSON
    that the tool accepts (and no tool call in langchain's sense), the
    handler answers 200 with [{"itinerary": v}], where [v] is what
    [generate_itinerary] returned: the [{"error": ...}] dict of a model
    call that raised, of an empty answer or of an answer that
    [json.loads] refused, or else the parsed answer. *)
Theorem X12_tool_failure_is_200 {I : Interp}
    (parse_input : pyval -> Exc str) (llm : Llm) (request : Request) (k : nat)
    (data : pyval) (q : str) (m : AIMessage)
    (tc : RawToolCall) (tcs : list RawToolCall) (args : pyval) (destination : str) :
  get_json request = Return data ->
  query_of data = Return q ->
  q <> [] ->
  llm k (Chat (List.map name (tools parse_input (Some llm)))
              [SystemMessage system_prompt; HumanMessage q])
  = Return (IsAIMessage m) ->
  tool_calls m <> [] ->
  additional_kwargs_tool_calls m = Some (tc :: tcs) ->
  function_name tc = py "generate_itinerary" ->
  Json.loads (function_arguments tc) = Return args ->
  is_tool_call args = false ->
  parse_input args = Return destination ->
  exists (v : pyval) (k' : nat),
    generate_itinerary_api (Some llm) (tools parse_input (Some llm)) request k
    = (Return (Some {| body := PDict [(py "itinerary", v)]; status := 200 |}), k')
    /\ match llm (S k) (Prompt (prompt_of destination)) with
       | Raise e => v = PDict [(py "error", PStr (exn_str e))]
       | Return response =>
           match strip (response_content response) with
           | [] =>
               v = PDict [(py "error",
                           PStr (py "Empty response received from model."))]
           | _ :: _ =>
               match Json.loads (json_str (response_content response)) with
               | Raise e => v = PDict [(py "error", PStr (exn_str e))]
               | Return parsed => v = parsed
               end
           end
       end.
Proof.
  intros Hd Hq Hne Hllm Htc Hraw Hname Hargs _ Hparse.
  destruct (Itinerary.generate_itinerary_returns (Some llm) destination (S k))
    as (v & k1 & Hg & Hv).
  assert (H1 : handle_tool_call (tool_map (tools parse_input (Some llm))) tc [] (S k)
               = (Return [success (function_name tc) args v], k1)).
  { unfold handle_tool_call, try_except, bind, lift, ret.
    rewrite Hargs, RegistryFacts.file_tool_map, Hname, StrFacts.str_eqb_refl.
    cbn [invoke generate_itinerary_tool]. unfold bind, lift.
    rewrite Hparse, Hg. reflexivity. }
  destruct (Dispatch.for_tool_calls_recorded
              (tool_map (tools parse_input (Some llm))) tcs
              [success (function_name tc) args v] k1) as (os & k' & H2 & _).
  exists v, k'. split; [|exact Hv].
  rewrite (Handler.tool_branch llm (tools parse_input (Some llm)) request k k'
             data q m (success (function_name tc) args v :: os) Hd Hq Hne Hllm Htc).
  - reflexivity.
  - unfold handle_tool_calls. rewrite Hraw. cbn [for_tool_calls]. unfold bind.
    rewrite H1, H2. reflexivity.
Qed.

Lemma X12_tool_failure_is_200_witness :
  exists (v : pyval) (k' : nat),
    generate_itinerary_api (Some (Cases.itinerary_llm []))
                           (tools destination_input (Some (Cases.itinerary_llm [])))
                           Run.pokhara_request 0
    = (Return (Some {| body := PDict [(py "itinerary", v)]; status := 200 |}), k')
    /\ v = PDict [(py "error", PStr (py "Empty response received from model."))].
Proof.
  eapply (X12_tool_failure_is_200
            destination_input (Cases.itinerary_llm []) Run.pokhara_request 0
            (PDict [(py "query", PStr (py "Plan a 3-day trip to Pokhara"))])
            (py "Plan a 3-day trip to Pokhara")
            Cases.one_call
            (Run.itinerary_call (jq "{'destination': 'Pokhara'}")) []
            (PDict [(py "destination", PStr (py "Pokhara"))])
            (py "Pokhara") eq_refl eq_refl).
  - vm_compute. discriminate.
  - reflexivity.
  - vm_compute. discriminate.
  - reflexivity.
  - reflexivity.
  - vm_compute. reflexivity.
  - reflexivity.
  - reflexivity.
Defined.

(** X13. With the registry of the file, an outcome carries an ["error"]
    only when [json.loads] raised, on the argument text, an exception that
    is no [JSONDecodeError], or when the call names [generate_itinerary],
    its arguments parse and the wrapper of the tool raises on them; the
    error is the message of that exception.  A failure of the model or of
    the parse of its answer never gives an error outcome. *)
Theorem X13_error_outcome_origin {I : Interp}
    (parse_input : pyval -> Exc str) (main_llm : option Llm)
    (tc : RawToolCall) (results : list dict) (k k' : nat) (o : dict) (msg : pyval) :
  handle_tool_call (tool_map (tools parse_input main_llm)) tc results k
  = (Return (results ++ [o]), k') ->
  dict_get o (py "error") = Some msg ->
  (exists e : exn,
      Json.loads (function_arguments tc) = Raise e
      /\ exn_cls e <> JSONDecodeError
      /\ msg = PStr (exn_str e))
  \/ (exists (args : pyval) (e : exn),
         function_name tc = py "generate_itinerary"
         /\ Json.loads (function_arguments tc) = Return args
         /\ parse_input args = Raise e
         /\ exn_cls e <> JSONDecodeError
         /\ msg = PStr (exn_str e)).
Proof.
  unfold handle_tool_call, try_except, bind, lift, ret.
  destruct (Json.loads (function_arguments tc)) as [args|e] eqn:Hl.
  - rewrite RegistryFacts.file_tool_map.
    destruct (str_eqb (py "generate_itinerary") (function_name tc)) eqn:Hn.
    + apply StrFacts.str_eqb_eq in Hn.
      cbn [invoke generate_itinerary_tool]. unfold bind, lift.
      destruct (parse_input args) as [d|e] eqn:Hp.
      * destruct (Itinerary.generate_itinerary_returns main_llm d k)
          as (v & k1 & Hg & _).
        rewrite Hg. intros E. inversion E as [[E1 E2]].
        apply app_inv_head in E1. inversion E1. subst o. discriminate.
      * unfold is_JSONDecodeError.
        destruct (exn_cls e) eqn:Hc; intros E; inversion E as [[E1 E2]];
          apply app_inv_head in E1; inversion E1; subst o; try discriminate;
          intros Hm; inversion Hm; right; exists args, e;
          repeat split; congruence.
    + intros E. inversion E as [[E1 E2]].
      apply app_inv_head in E1. inversion E1. subst o. discriminate.
  - unfold is_JSONDecodeError.
    destruct (exn_cls e) eqn:Hc; intros E; inversion E as [[E1 E2]];
      apply app_inv_head in E1; inversion E1; subst o; try discriminate;
      intros Hm; inversion Hm; left; exists e; repeat split; congruence.
Qed.

Lemma X13_error_outcome_origin_witness :
  (exists e : exn,
      Json.loads (function_arguments Cases.long_integer_call) = Raise e
      /\ exn_cls e <> JSONDecodeError
      /\ PStr (py "Exceeds the limit (4300 digits) for integer string conversion: value has 4301 digits; use sys.set_int_max_str_digits() to increase the limit")
         = PStr (exn_str e))
  \/ (exists (args : pyval) (e : exn),
         function_name Cases.long_integer_call = py "generate_itinerary"
         /\ Json.loads (function_arguments Cases.long_integer_call) = Return args
         /\ destination_input args = Raise e
         /\ exn_cls e <> JSONDecodeError
         /\ PStr (py "Exceeds the limit (4300 digits) for integer string conversion: value has 4301 digits; use sys.set_int_max_str_digits() to increase the limit")
            = PStr (exn_str e)).
Proof.
  eapply (X13_error_outcome_origin
            destination_input None Cases.long_integer_call [] 0 0
            (failure (py "book_flight")
                     (Exn ValueError (py "Exceeds the limit (4300 digits) for integer string conversion: value has 4301 digits; use sys.set_int_max_str_digits() to increase the limit")))).
  - vm_compute. reflexivity.
  - reflexivity.
Defined.

(** X14. With the registry of the file, the dispatch calls the model at
    most once for each proposed tool call, and never for a response
    without tool calls. *)
Theorem X14_one_model_call_per_tool_call {I : Interp}
    (parse_input : pyval -> Exc str) (main_llm : option Llm)
    (response : AIMessage) (k k' : nat) (r : Exc (list dict)) :
  handle_tool_calls (tools parse_input main_llm) response k = (r, k') ->
  k <= k' <= k + List.length (raw_tool_calls response).
Proof.
  unfold handle_tool_calls, raw_tool_calls.
  destruct (additional_kwargs_tool_calls response) as [[|tc tcs]|].
  - intros E. inversion E. simpl. lia.
  - apply ToolFacts.for_tool_calls_calls.
  - intros E. inversion E. simpl. lia.
Qed.

Lemma X14_one_model_call_per_tool_call_witness :
  1 <= 2 <= 1 + List.length (raw_tool_calls Run.two_calls).
Proof.
  eapply (X14_one_model_call_per_tool_call
            destination_input (Some Run.two_calls_llm) Run.two_calls 1 2).
  vm_compute. reflexivity.
Defined.

(** ** Further properties of the clean-up *)

Module CleanFacts.

Lemma startswith_app (old s : str) :
  startswith old s = true -> exists b, s = old ++ b.
Proof.
  revert s. induction old as [|o old IH]; intros s; simpl.
  - intros _. exists s. reflexivity.
  - destruct s as [|c s]; [discriminate|].
    intros H. apply andb_prop in H. destruct H as [Hc Hs].
    apply N.eqb_eq in Hc. subst c.
    destruct (IH s Hs) as (b & ->). exists b. reflexivity.
Qed.

Lemma startswith_prefix (old b : str) : startswith old (old ++ b) = true.
Proof.
  induction old as [|o old IH]; simpl; [reflexivity|].
  rewrite N.eqb_refl. exact IH.
Qed.

(** A text in which [old] does not occur is left as it is. *)
Lemma replace_absent (old new s : str) :
  old <> [] -> contains old s = false -> replace s old new = s.
Proof.
  intros Hold. induction s as [|c t IH]; intros Hno.
  - destruct old; [congruence|reflexivity].
  - simpl in Hno. apply orb_false_iff in Hno. destruct Hno as [Hs Ht].
    rewrite StrFacts.replace_keep by exact Hs.
    f_equal. apply IH. exact Ht.
Qed.

Lemma startswith_longer (old ext s : str) :
  startswith (old ++ ext) s = true -> startswith old s = true.
Proof.
  revert s. induction old as [|o old IH]; intros s; [reflexivity|].
  destruct s as [|c s]; simpl; [discriminate|].
  intros H. apply andb_prop in H. destruct H as [Hc Hs].
  rewrite Hc. apply IH. exact Hs.
Qed.

Lemma contains_longer (old ext s : str) :
  contains old s = false -> contains (old ++ ext) s = false.
Proof.
  induction s as [|c t IH]; simpl; intros H;
    apply orb_false_iff in H; destruct H as [Hs Ht]; apply orb_false_iff; split.
  - destruct (startswith (old ++ ext) []) eqn:E; [|reflexivity].
    apply startswith_longer in E. congruence.
  - reflexivity.
  - destruct (startswith (old ++ ext) (c :: t)) eqn:E; [|reflexivity].
    apply startswith_longer in E. congruence.
  - apply IH. exact Ht.
Qed.

(** The characters before the first one that can start an occurrence are
    kept. *)
Lemma replace_app_free (o : char) (old new a s : str) :
  hd_error old = Some o ->
  (forall c, In c a -> c <> o) ->
  replace (a ++ s) old new = a ++ replace s old new.
Proof.
  intros Ho. destruct old as [|o' old]; [discriminate|].
  inversion Ho. subst o'.
  induction a as [|c a IH]; intros Hfree; [reflexivity|].
  simpl app. rewrite StrFacts.replace_keep.
  - f_equal. apply IH. intros c' Hin. apply Hfree. right. exact Hin.
  - simpl. destruct (N.eqb_spec o c) as [E|_]; [|reflexivity].
    exfalso. apply (Hfree c); [left; reflexivity|congruence].
Qed.

Lemma skipn_length_app (a b : str) : skipn (List.length a) (a ++ b) = b.
Proof.
  induction a as [|x a IH]; [reflexivity|exact IH].
Qed.

(** An occurrence at the head is removed. *)
Lemma replace_prefix (old new rest : str) :
  old <> [] ->
  replace (old ++ rest) old new = new ++ replace rest old new.
Proof.
  intros Hold. destruct old as [|o old]; [congruence|].
  rewrite StrFacts.replace_match;
    [|discriminate|apply startswith_prefix].
  rewrite skipn_length_app. reflexivity.
Qed.

End CleanFacts.

(** X15. An answer in which neither the fence nor the empty tool-use tag
    occurs is only trimmed by the clean-up: the value returned for it is
    [json.loads] of the trimmed answer. *)
Theorem X15_clean_text_is_only_trimmed {I : Interp} (raw : str) :
  contains (py "```") raw = false ->
  contains (py "<tool-use></tool-use>") raw = false ->
  json_str raw = strip raw
  /\ sanitize_and_parse raw = Json.loads (strip raw).
Proof.
  intros Hf Ht.
  assert (H : json_str raw = strip raw).
  { unfold json_str.
    rewrite (CleanFacts.replace_absent (py "```json") [] raw);
      [|discriminate|exact (CleanFacts.contains_longer (py "```") (py "json") raw Hf)].
    rewrite (CleanFacts.replace_absent (py "```") [] raw);
      [|discriminate|exact Hf].
    rewrite (CleanFacts.replace_absent (py "<tool-use></tool-use>") [] raw);
      [reflexivity|discriminate|exact Ht]. }
  split; [exact H|]. unfold sanitize_and_parse. rewrite H. reflexivity.
Qed.

Lemma X15_clean_text_is_only_trimmed_witness :
  json_str (jq " {'day': 1} ") = strip (jq " {'day': 1} ")
  /\ sanitize_and_parse (jq " {'day': 1} ") = Json.loads (strip (jq " {'day': 1} ")).
Proof.
  apply X15_clean_text_is_only_trimmed; vm_compute; reflexivity.
Defined.

(** X16. A document put between [```json] and [```] comes back: when the
    document holds no backquote and no [<], the clean-up of the fenced
    text is the trimmed document, and the value returned is [json.loads]
    of it. *)
Theorem X16_fenced_document_comes_back {I : Interp} (document : str) :
  (forall c, In c document -> c <> 96%N /\ c <> 60%N) ->
  json_str (py "```json" ++ document ++ py "```") = strip document
  /\ sanitize_and_parse (py "```json" ++ document ++ py "```")
     = Json.loads (strip document).
Proof.
  intros Hfree.
  assert (H : json_str (py "```json" ++ document ++ py "```") = strip document).
  { assert (Hq : forall c, In c document -> c <> 96%N)
      by (intros c Hin; apply Hfree; exact Hin).
    assert (Hl : forall c, In c document -> c <> 60%N)
      by (intros c Hin; apply Hfree; exact Hin).
    unfold json_str.
    rewrite CleanFacts.replace_prefix by discriminate.
    rewrite (CleanFacts.replace_app_free 96%N (py "```json") [] document (py "```")
               eq_refl Hq).
    change (replace (py "```") (py "```json") []) with (py "```").
    simpl app at 1.
    rewrite (CleanFacts.replace_app_free 96%N (py "```") [] document (py "```")
               eq_refl Hq).
    change (replace (py "```") (py "```") []) with (@nil char).
    rewrite (CleanFacts.replace_app_free 60%N (py "<tool-use></tool-use>") []
               document [] eq_refl Hl).
    change (replace [] (py "<tool-use></tool-use>") []) with (@nil char).
    rewrite !app_nil_r. reflexivity. }
  split; [exact H|]. unfold sanitize_and_parse. rewrite H. reflexivity.
Qed.

Lemma X16_fenced_document_comes_back_witness :
  json_str (py "```json" ++ ([10%N] ++ jq "{'day': 1}" ++ [10%N]) ++ py "```")
  = strip ([10%N] ++ jq "{'day': 1}" ++ [10%N])
  /\ sanitize_and_parse
       (py "```json" ++ ([10%N] ++ jq "{'day': 1}" ++ [10%N]) ++ py "```")
     = Json.loads (strip ([10%N] ++ jq "{'day': 1}" ++ [10%N])).
Proof.
  apply X16_fenced_document_comes_back.
  intros c Hin. vm_compute in Hin.
  repeat (destruct Hin as [<-|Hin]; [split; discriminate|]).
  contradiction.
Defined.

(** ** Further properties of the start-up *)

(** X17. After the start-up [main_llm] is the client built from the key
    exactly when the key is set, not empty, not the placeholder, and the
    constructor returns; it is [None] exactly when the key disables the
    service or the constructor raises, so a failing constructor does not
    stop the start-up. *)
Theorem X17_main_llm_after_start_up
    (getenv : option str) (ChatGroq : str -> Exc Llm) :
  (forall llm,
      init_main_llm getenv ChatGroq = Some llm
      <-> exists key, getenv = Some key /\ key <> [] /\ key <> placeholder_key
                      /\ ChatGroq key = Return llm)
  /\ (init_main_llm getenv ChatGroq = None
      <-> unconfigured getenv
          \/ exists key e, getenv = Some key /\ ChatGroq key = Raise e).
Proof.
  unfold init_main_llm, unconfigured.
  destruct getenv as [[|c key]|].
  - split.
    + intros llm. split; [discriminate|].
      intros (key & E & Hne & _). inversion E. congruence.
    + split; [intros _; left; right; left; reflexivity|reflexivity].
  - destruct (str_eqb (c :: key) placeholder_key) eqn:Hp.
    + apply StrFacts.str_eqb_eq in Hp. split.
      * intros llm. split; [discriminate|].
        intros (key' & E & _ & Hnp & _). inversion E. congruence.
      * split; [intros _; left; right; right; congruence|reflexivity].
    + assert (Hnp : c :: key <> placeholder_key).
      { intros E. rewrite E, StrFacts.str_eqb_refl in Hp. discriminate. }
      destruct (ChatGroq (c :: key)) as [llm0|e] eqn:Hc; split.
      * intros llm. split.
        -- intros E. inversion E. subst. exists (c :: key).
           repeat split; try assumption. discriminate.
        -- intros (key' & E & _ & _ & Hc'). inversion E. subst. congruence.
      * split; [discriminate|].
        intros [[H|[H|H]]|(key' & e & E & Hc')]; try discriminate.
        -- inversion H. congruence.
        -- inversion E. subst. congruence.
      * intros llm. split; [discriminate|].
        intros (key' & E & _ & _ & Hc'). inversion E. subst. congruence.
      * split; [|reflexivity]. intros _. right. exists (c :: key), e.
        split; [reflexivity|exact Hc].
  - split.
    + intros llm. split; [discriminate|]. intros (key & E & _). discriminate.
    + split; [intros _; left; left; reflexivity|reflexivity].
Qed.

(** ** The clean-up only removes characters *)

Module SubseqFacts.

Lemma subseq_refl (a : str) : subseq a a.
Proof. induction a; constructor; assumption. Qed.

Lemma subseq_nil_l (b : str) : subseq [] b.
Proof. induction b; constructor; assumption. Qed.

Lemma subseq_trans (a b c : str) : subseq a b -> subseq b c -> subseq a c.
Proof.
  intros Hab Hbc. revert a Hab.
  induction Hbc as [|x b c Hbc IH|x b c Hbc IH]; intros a Hab.
  - exact Hab.
  - inversion Hab; subst.
    + apply subseq_keep. apply IH. assumption.
    + apply subseq_drop. apply IH. assumption.
  - apply subseq_drop. apply IH. exact Hab.
Qed.

Lemma subseq_app_l (a x y : str) : subseq x y -> subseq x (a ++ y).
Proof.
  intros H. induction a as [|c a IH]; [exact H|].
  simpl. apply subseq_drop. exact IH.
Qed.

Lemma subseq_app_r (b x y : str) : subseq x y -> subseq x (y ++ b).
Proof.
  induction 1; simpl.
  - apply subseq_nil_l.
  - apply subseq_keep. assumption.
  - apply subseq_drop. assumption.
Qed.

Lemma subseq_length (a b : str) : subseq a b -> List.length a <= List.length b.
Proof. induction 1; simpl; lia. Qed.

(** Removing occurrences leaves characters out and keeps the others in
    their order. *)
Lemma replace_subseq (old s : str) : subseq (replace s old []) s.
Proof.
  unfold replace. generalize 0 as skip.
  induction s as [|c t IH]; intros skip.
  - destruct skip; simpl; destruct old; constructor.
  - destruct skip as [|k]; cbn [replace_from].
    + destruct (startswith old (c :: t)).
      * destruct old as [|o old]; simpl.
        -- apply subseq_keep. apply IH.
        -- apply subseq_drop. apply IH.
      * apply subseq_keep. apply IH.
    + apply subseq_drop. apply IH.
Qed.

Lemma strip_subseq (s : str) : subseq (strip s) s.
Proof.
  destruct (StrFacts.strip_trimmed s) as [(a & b & E & _) _].
  rewrite E at 2. apply subseq_app_l, subseq_app_r, subseq_refl.
Qed.

End SubseqFacts.

(** X18. The clean-up only leaves characters out: the text handed to
    [json.loads] is the answer with some characters removed, the others in
    their order, and it is never longer than the answer. *)
Theorem X18_clean_up_only_removes (raw : str) :
  subseq (json_str raw) raw
  /\ List.length (json_str raw) <= List.length raw.
Proof.
  assert (H : subseq (json_str raw) raw).
  { unfold json_str.
    eapply SubseqFacts.subseq_trans; [apply SubseqFacts.strip_subseq|].
    eapply SubseqFacts.subseq_trans; [apply SubseqFacts.replace_subseq|].
    eapply SubseqFacts.subseq_trans; [apply SubseqFacts.replace_subseq|].
    apply SubseqFacts.replace_subseq. }
  split; [exact H|]. apply SubseqFacts.subseq_length. exact H.
Qed.
